(** * db_report_agents: the coordinator and the retrieval agent

    A shallow embedding of [coordinator.py] and of the tools of
    [agents/retrieval_agents.py], and the properties of the routing,
    normalisation, dispatch, start-up and ingestion code.

    Python values are embedded as the inductive [pyval]; functions that
    can raise return [exn + A]; functions that talk to the language
    model or to a remote agent run in a state monad over an abstract
    world, which also records every remote call. *)

From Stdlib Require Import String Ascii List ZArith NArith Bool Lia DecimalString.
Import ListNotations.
Open Scope string_scope.
Open Scope Z_scope.
Set Warnings "-register-all".

(** ** Python values *)

(** The values that travel between the language model, the coordinator
    and the agents: what [json.loads] builds, plus fastmcp's
    [CallToolResult], of which the coordinator reads the attribute
    [structured_content] only.  A float is kept as its IEEE-754 binary64
    bit pattern; a dict is an association list in insertion order with
    pairwise distinct keys. *)
Inductive pyval : Type :=
| PNone
| PBool (b : bool)
| PInt (z : Z)
| PFloat (bits : Z)
| PStr (s : string)
| PList (l : list pyval)
| PDict (d : list (string * pyval))
| PCallToolResult (structured_content : pyval).

Definition pydict : Type := list (string * pyval).

(** The exceptions the modelled code can meet. *)
Inductive exn : Type :=
| AttributeError
| TypeError
| JSONDecodeError
| OtherError (msg : string).

(** [d.get(k)] on a dict: [None] of Rocq when the key is absent. *)
Fixpoint dict_get (d : pydict) (k : string) : option pyval :=
  match d with
  | [] => None
  | (k', v) :: r => if String.eqb k' k then Some v else dict_get r k
  end.

(** [k in d] on a dict. *)
Definition dict_mem (d : pydict) (k : string) : bool :=
  match dict_get d k with Some _ => true | None => false end.

(** [d[k] = v]: an existing key keeps its place, a new one goes last. *)
Fixpoint dict_set (d : pydict) (k : string) (v : pyval) : pydict :=
  match d with
  | [] => [(k, v)]
  | (k', v') :: r =>
      if String.eqb k' k then (k', v) :: r else (k', v') :: dict_set r k v
  end.

(** [d.get(k, dflt)]. *)
Definition dict_get_default (d : pydict) (k : string) (dflt : pyval) : pyval :=
  match dict_get d k with Some v => v | None => dflt end.

(** [bool(v)]: the truth value Python's [not], [or] and [if] test.  A
    float is false exactly when it is [+0.0] or [-0.0]. *)
Definition truthy (v : pyval) : bool :=
  match v with
  | PNone => false
  | PBool b => b
  | PInt z => negb (z =? 0)
  | PFloat bits => negb ((bits =? 0) || (bits =? 2 ^ 63))
  | PStr s => negb (String.eqb s EmptyString)
  | PList l => match l with [] => false | _ => true end
  | PDict d => match d with [] => false | _ => true end
  | PCallToolResult _ => true
  end.

(** [a or b]. *)
Definition py_or (a b : pyval) : pyval := if truthy a then a else b.

(** [isinstance(v, list)]. *)
Definition is_list (v : pyval) : bool :=
  match v with PList _ => true | _ => false end.

(** [v == s] for a string literal [s]. *)
Definition eq_str (v : pyval) (s : string) : bool :=
  match v with PStr s' => String.eqb s' s | _ => false end.

(** ** coordinator.py: unwrap_rows *)

Definition unwrap_rows (resp : pyval) : pyval :=
  match resp with
  | PCallToolResult sc =>
      match sc with
      | PDict d =>
          if dict_mem d "rows" then dict_get_default d "rows" PNone
          else if dict_mem d "result"
                  && is_list (dict_get_default d "result" PNone)
          then dict_get_default d "result" PNone
          else PList []
      | PList _ => sc
      | _ => PList []
      end
  | PDict d =>
      py_or (dict_get_default d "rows" PNone)
            (dict_get_default d "result" (PList []))
  | PList _ => resp
  | _ => PList []
  end.

(** *** The resolution order in the specification's words *)

(** Steps 1 and 2 of the specification of the normaliser, on a mapping:
    the value under [rows] as it is, else the value under [result] when
    it is a sequence. *)
Definition steps_1_2 (d : pydict) : option pyval :=
  match dict_get d "rows" with
  | Some v => Some v
  | None =>
      match dict_get d "result" with
      | Some (PList l) => Some (PList l)
      | _ => None
      end
  end.

(** The six steps of the specification, first match wins; this is the
    reading [unwrap_rows] is compared with, not code of the program. *)
Definition normalize_spec (reply : pyval) : pyval :=
  match reply with
  | PCallToolResult (PDict d) =>
      match steps_1_2 d with Some v => v | None => PList [] end
  | PCallToolResult (PList l) => PList l
  | PDict d =>
      match steps_1_2 d with Some v => v | None => PList [] end
  | PList l => PList l
  | _ => PList []
  end.

(** The plain mappings on which the one-line branch of [unwrap_rows]
    leaves that order: a [rows] value that is false in Python (unless it
    is the empty list and there is no [result]), or no [rows] and a
    [result] that is not a list. *)
Definition off_order (reply : pyval) : bool :=
  match reply with
  | PDict d =>
      match dict_get d "rows" with
      | Some v =>
          negb (truthy v)
          && negb (match v with PList [] => negb (dict_mem d "result") | _ => false end)
      | None =>
          match dict_get d "result" with
          | Some v => negb (is_list v)
          | None => false
          end
      end
  | _ => false
  end.

(** ** Python operations the coordinator applies to untrusted values *)

(** [v.get(k, dflt)]: only a dict has the method. *)
Definition py_get (v : pyval) (k : string) (dflt : pyval) : exn + pyval :=
  match v with
  | PDict d => inr (dict_get_default d k dflt)
  | _ => inl AttributeError
  end.

(** [k in v] for a string [k]: key membership in a dict, element
    membership in a list, substring test in a string; the other values
    are not iterable. *)
Definition py_contains (v : pyval) (k : string) : exn + bool :=
  match v with
  | PDict d => inr (dict_mem d k)
  | PList l => inr (existsb (fun x => eq_str x k) l)
  | PStr s => inr (match String.index 0 k s with Some _ => true | None => false end)
  | _ => inl TypeError
  end.

(** [v[k] = x] for a string [k]: only a dict accepts it. *)
Definition py_setitem (v : pyval) (k : string) (x : pyval) : exn + pyval :=
  match v with
  | PDict d => inr (PDict (dict_set d k x))
  | _ => inl TypeError
  end.

(** The code points of a string held as UTF-8 bytes: every byte but
    the continuation bytes [10xxxxxx] starts one. *)
Fixpoint code_points (s : string) : nat :=
  match s with
  | EmptyString => O
  | String c r =>
      let n := nat_of_ascii c in
      if ((128 <=? n) && (n <? 192))%nat then code_points r
      else S (code_points r)
  end.

(** [len(v)]. *)
Definition py_len (v : pyval) : exn + nat :=
  match v with
  | PStr s => inr (code_points s)
  | PList l => inr (List.length l)
  | PDict d => inr (List.length d)
  | _ => inl TypeError
  end.

(** [x.structured_content if isinstance(x, CallToolResult) else x]. *)
Definition payload (x : pyval) : pyval :=
  match x with PCallToolResult sc => sc | _ => x end.

(** ** Remote calls and the monad of the coordinator *)

(** One [Client(url).call_tool(name, args)]. *)
Record Call : Type := mkCall {
  call_url : string;
  call_name : string;
  call_args : pyval
}.

Definition CSV_PATH : string := "sample.csv".

(** The double quote, and a string written between double quotes. *)
Definition dq : ascii := "034"%char.

Definition quoted (s : string) : string :=
  String dq (s ++ String dq EmptyString).

(** The directive [interpret_with_llm] sends to the model. *)
Definition system_msg : string :=
  "
    你是一個任務選擇器，負責將使用者輸入轉換成工具調用指令。

    ### 規則
    - " ++ quoted "新增/插入/查詢/商店退貨數量" ++ " → query_db
    - " ++ quoted "列出所有退貨/顯示所有退貨紀錄/全部退貨資料" ++ " → list_returns
    - " ++ quoted "產生/生成/請出 Excel 報表" ++ " → generate_report
    - " ++ quoted "匯入 CSV/載入 sample.csv" ++ " → ingest_csv

    ⚠️ 格式要求:
    - 必須輸出 JSON: {" ++ quoted "tool" ++ ": " ++ quoted "<工具名稱>"
  ++ ", " ++ quoted "args" ++ ": {...}}
    - 工具名稱只能是: ingest_csv, query_db, list_returns, generate_report, none
    ".

Section Coordinator.

(** Everything outside the coordinator process: the language model,
    the agents behind their URLs and the local SQLite file. *)
Variable World : Type.

(** [llm.invoke(messages).content]; it may raise. *)
Variable llm_invoke : list (string * string) -> World -> (exn + string) * World.
(** [json.loads]. *)
Variable json_loads : string -> exn + pyval.
(** Opening a client on a URL and awaiting [call_tool]; a refused
    connection, a timeout or a tool error is a raise. *)
Variable call_tool : string -> string -> pyval -> World -> (exn + pyval) * World.
(** [SELECT COUNT( * ) FROM returns] on the local file [returns.db]. *)
Variable select_count : World -> (exn + Z) * World.
(** [str(v)], as an f-string formats a value. *)
Variable py_str : pyval -> string.
(** The agents' addresses, read from the environment. *)
Variables RETRIEVAL_URL REPORT_URL : string.

(** The state of a run: the world and the remote calls made so far,
    oldest first. *)
Record state : Type := mkState {
  world : World;
  calls : list Call
}.

Definition M (A : Type) : Type := state -> (exn + A) * state.

Definition ret {A} (a : A) : M A := fun s => (inr a, s).

Definition raise {A} (e : exn) : M A := fun s => (inl e, s).

Definition bind {A B} (m : M A) (k : A -> M B) : M B :=
  fun s =>
    match m s with
    | (inr a, s') => k a s'
    | (inl e, s') => (inl e, s')
    end.

Definition lift {A} (r : exn + A) : M A :=
  match r with inr a => ret a | inl e => raise e end.

(** [try: m except Exception: h]. *)
Definition try_catch {A} (m : M A) (h : exn -> M A) : M A :=
  fun s =>
    match m s with
    | (inr a, s') => (inr a, s')
    | (inl e, s') => h e s'
    end.

Notation "x <- m ;; k" := (bind m (fun x => k))
  (at level 61, m at next level, right associativity).

Definition invoke (messages : list (string * string)) : M string :=
  fun s =>
    let (r, w) := llm_invoke messages (world s) in
    (r, mkState w (calls s)).

Definition call (url name : string) (args : pyval) : M pyval :=
  fun s =>
    let (r, w) := call_tool url name args (world s) in
    (r, mkState w (calls s ++ [mkCall url name args])%list).

Definition count_returns : M Z :=
  fun s =>
    let (r, w) := select_count (world s) in
    (r, mkState w (calls s)).

(** *** interpret_with_llm *)

Definition sentinel : pyval :=
  PDict [("tool", PStr "none"); ("args", PDict []);
         ("error", PStr "無法解析需求")].

Definition interpret_with_llm (prompt : string) : M pyval :=
  content <- invoke [("system", system_msg); ("user", prompt)] ;;
  match json_loads content with
  | inr v => ret v
  | inl _ => ret sentinel
  end.

(** *** process_request *)

Definition process_request (prompt : string) : M pyval :=
  plan <- interpret_with_llm prompt ;;
  tool <- lift (py_get plan "tool" PNone) ;;
  args <- lift (py_get plan "args" (PDict [])) ;;
  if eq_str tool "ingest_csv" then
    result <- call RETRIEVAL_URL "ingest_csv" (PDict [("path", PStr CSV_PATH)]) ;;
    ret (PDict [("status", PStr "ok"); ("message", result)])
  else if eq_str tool "query_db" then
    present <- lift (py_contains args "prompt") ;;
    args' <- (if present then ret args
              else lift (py_setitem args "prompt" (PStr prompt))) ;;
    resp <- call RETRIEVAL_URL "query_db" args' ;;
    ret (payload resp)
  else if eq_str tool "list_returns" then
    resp <- call RETRIEVAL_URL "list_returns" args ;;
    let rows := unwrap_rows resp in
    _ <- lift (py_len rows) ;;
    ret (PDict [("status", PStr "ok"); ("rows", rows)])
  else if eq_str tool "generate_report" then
    resp <- call RETRIEVAL_URL "list_returns" (PDict [("limit", PInt 500)]) ;;
    let rows := unwrap_rows resp in
    if negb (truthy rows) then
      ret (PDict [("status", PStr "error");
                  ("message", PStr "無資料，無法生成報表")])
    else
      rep <- call REPORT_URL "generate_excel_report" (PDict [("rows", rows)]) ;;
      ret (payload rep)
  else
    ret (PDict [("status", PStr "error");
                ("message", PStr ("未知的任務: " ++ py_str plan))]).

(** *** init_db, the start-up check of the main block *)

Definition init_db : M unit :=
  count <- try_catch count_returns (fun _ => ret 0) ;;
  if 0 <? count then ret tt
  else
    try_catch
      (resp <- call RETRIEVAL_URL "ingest_csv" (PDict [("path", PStr CSV_PATH)]) ;;
       ret tt)
      (fun _ => ret tt).

End Coordinator.

Arguments mkState {World} _ _.
Arguments world {World} _.
Arguments calls {World} _.

(** How many of the calls went to the operation [name]. *)
Definition count_calls (name : string) (cs : list Call) : nat :=
  List.length (filter (fun c => String.eqb (call_name c) name) cs).

(** The tool names [process_request] has a branch for. *)
Definition recognized (tool : pyval) : bool :=
  eq_str tool "ingest_csv" || eq_str tool "query_db"
  || eq_str tool "list_returns" || eq_str tool "generate_report".

(** [reply.get("status") == "error"] on a mapping. *)
Definition is_error (reply : pyval) : bool :=
  match reply with
  | PDict d => eq_str (dict_get_default d "status" PNone) "error"
  | _ => false
  end.

(** ** agents/retrieval_agents.py *)

Module Retrieval.

(** One row of the table [returns]: the AUTOINCREMENT key and the four
    TEXT columns, each a string or NULL ([PNone]). *)
Record Row : Type := mkRow {
  id : Z;
  order_id : pyval;
  product : pyval;
  store : pyval;
  date : pyval
}.

(** The SQLite file: the table [returns] ([None] until it is created)
    and the largest key the table has ever used, which SQLite keeps in
    [sqlite_sequence] for an AUTOINCREMENT column. *)
Record Db : Type := mkDb {
  returns : option (list Row);
  seq : Z
}.

(** The agent process: its database and how many uuids it has drawn. *)
Record Agent : Type := mkAgent {
  db : Db;
  draws : nat
}.

(** A row of a pandas DataFrame as [iterrows] yields it: the cells by
    column name. *)
Definition Series : Type := pydict.
Definition DataFrame : Type := list Series.

(** The four columns of a row, as [list_returns] selects them. *)
Definition data (r : Row) : pyval * pyval * pyval * pyval :=
  (order_id r, product r, store r, date r).

Definition table (d : Db) : list Row :=
  match returns d with Some t => t | None => [] end.

(** [CREATE TABLE IF NOT EXISTS returns (...)]. *)
Definition create_table (d : Db) : Db :=
  match returns d with
  | Some _ => d
  | None => mkDb (Some []) (seq d)
  end.

(** [DELETE FROM returns]: the rows go, the key sequence stays. *)
Definition delete_all (d : Db) : Db :=
  match returns d with
  | Some _ => mkDb (Some []) (seq d)
  | None => d
  end.

(** The integers SQLite holds, in a bound parameter as in a key. *)
Definition in_int64 (z : Z) : bool := (- 2 ^ 63 <=? z) && (z <? 2 ^ 63).

(** A double that is a NaN, by its bits: exponent all ones, fraction
    not zero. *)
Definition is_nan (bits : Z) : bool := 2 ^ 63 - 2 ^ 52 <? bits mod 2 ^ 63.

(** The decimal text of an integer. *)
Definition decimal (z : Z) : string := NilZero.string_of_int (Z.to_int z).

Definition error_reply (msg : string) : pyval :=
  PDict [("status", PStr "error"); ("error", PStr msg)].

Section Tools.

(** [os.path.exists] and [pd.read_csv] on the agent's file system;
    a failure carries [str(e)]. *)
Variable path_exists : string -> bool.
Variable read_csv : string -> string + DataFrame.
(** [str(uuid.uuid4())] at the n-th draw. *)
Variable uuid4 : nat -> string.
(** [str(v)]. *)
Variable py_str : pyval -> string.
(** Whether the INSERT of the four values is refused for a reason of
    the deployment (a constraint of the table as it was created, a
    numpy scalar the driver does not bind), with [str(e)]. *)
Variable refused : pyval -> pyval -> pyval -> pyval -> option string.
(** The text SQLite writes for a double that is not a NaN. *)
Variable float_text : Z -> string.
Variable DB_PATH : string.
(** [get_db_chain()]: [None] when the chain could not be built; a
    chain runs a prompt against the database and may raise. *)
Variable chain : option (string -> Agent -> (string + pyval) * Agent).

(** [s[:8]]. *)
Definition first8 (s : string) : string := String.substring 0 8 s.

(** The four values one iteration of the loop binds: [order_id] is
    [str] of the cell, or of the first eight characters of a fresh
    uuid when the file has no such column; the others are the cells,
    or the empty string. *)
Definition values (n : nat) (row : Series) : pyval * pyval * pyval * pyval :=
  let dflt := PStr (first8 (uuid4 n)) in
  (PStr (py_str (dict_get_default row "order_id" dflt)),
   dict_get_default row "product" (PStr EmptyString),
   dict_get_default row "store" (PStr EmptyString),
   dict_get_default row "date" (PStr EmptyString)).

(** What a TEXT column holds of a bound Python value: [None] and a NaN
    are NULL, a string is itself, an integer, a boolean and any other
    double are stored as their text; an integer outside 64 bits and a
    value of another type cannot be bound (the wording of the
    exception is the driver's). *)
Definition column_text (v : pyval) : string + pyval :=
  match v with
  | PNone => inr PNone
  | PBool b => inr (PStr (if b then "1" else "0"))
  | PInt z =>
      if in_int64 z then inr (PStr (decimal z))
      else inl "Python int too large to convert to SQLite INTEGER"
  | PFloat bits => inr (if is_nan bits then PNone else PStr (float_text bits))
  | PStr s => inr (PStr s)
  | _ => inl "Error binding parameter: type is not supported"
  end.

Definition bindable (v : pyval) : bool :=
  match column_text v with inr _ => true | inl _ => false end.

(** The stored form of a value that binds. *)
Definition stored (v : pyval) : pyval :=
  match column_text v with inr x => x | inl _ => v end.

(** [INSERT INTO returns (order_id, product, store, date) VALUES (?, ?,
    ?, ?)]: the four values are bound in order and stored as text, the
    new row takes the key after the sequence, and no key follows the
    largest 64-bit integer. *)
Definition insert (o p s dt : pyval) (d : Db) : string + Db :=
  match column_text o with
  | inl e => inl e
  | inr o' =>
      match column_text p with
      | inl e => inl e
      | inr p' =>
          match column_text s with
          | inl e => inl e
          | inr s' =>
              match column_text dt with
              | inl e => inl e
              | inr dt' =>
                  if seq d <? 2 ^ 63 - 1 then
                    inr (mkDb (Some (table d ++ [mkRow (seq d + 1) o' p' s' dt'])%list)
                           (seq d + 1))
                  else inl "database or disk is full"
              end
          end
      end
  end.

(** The loop [for _, row in df.iterrows()]: one INSERT per record;
    the default of [order_id] is evaluated, and a uuid drawn, at
    every record. *)
Fixpoint insert_rows (df : DataFrame) (a : Agent) : string * nat + Agent :=
  match df with
  | [] => inr a
  | row :: rest =>
      let '(o, p, s, dt) := values (draws a) row in
      match refused o p s dt with
      | Some msg => inl (msg, S (draws a))
      | None =>
          match insert o p s dt (db a) with
          | inl msg => inl (msg, S (draws a))
          | inr d => insert_rows rest (mkAgent d (S (draws a)))
          end
      end
  end.

(** The four values bind and nothing of the deployment refuses them. *)
Definition accepted (v : pyval * pyval * pyval * pyval) : Prop :=
  let '(o, p, s, dt) := v in
  refused o p s dt = None
  /\ bindable o = true /\ bindable p = true
  /\ bindable s = true /\ bindable dt = true.

(** The values bound for a whole file, the first record at draw [n]. *)
Fixpoint bindings (df : DataFrame) (n : nat) :
  list (pyval * pyval * pyval * pyval) :=
  match df with
  | [] => []
  | row :: rest => values n row :: bindings rest (S n)
  end.

(** The same values as the table stores them. *)
Definition records (df : DataFrame) (n : nat) :
  list (pyval * pyval * pyval * pyval) :=
  map (fun v => let '(o, p, s, dt) := v in (stored o, stored p, stored s, stored dt))
      (bindings df n).

(** Every record of the file has the column [order_id]. *)
Definition has_order_id (df : DataFrame) : bool :=
  forallb (fun row => dict_mem row "order_id") df.

(** [ingest_csv].  When an INSERT raises, nothing was committed: the
    table, created outside the transaction, keeps its old rows; the
    uuids drawn so far are spent. *)
Definition ingest_csv (path : string) (a : Agent) : pyval * Agent :=
  if negb (path_exists path) then
    (error_reply ("CSV 檔案不存在: " ++ path), a)
  else
    match read_csv path with
    | inl msg => (error_reply msg, a)
    | inr df =>
        let a1 := mkAgent (create_table (db a)) (draws a) in
        let a2 := mkAgent (delete_all (db a1)) (draws a1) in
        match insert_rows df a2 with
        | inl (msg, n) => (error_reply msg, mkAgent (db a1) n)
        | inr a3 =>
            (PDict [("status", PStr "ok");
                    ("rows_inserted", PInt (Z.of_nat (List.length df)))],
             a3)
        end
    end.

(** [query_db]. *)
Definition query_db (prompt : string) (a : Agent) : pyval * Agent :=
  match chain with
  | None => (error_reply "SQLDatabaseChain 未初始化成功", a)
  | Some c =>
      match c prompt a with
      | (inr result, a') =>
          (PDict [("status", PStr "ok"); ("prompt", PStr prompt);
                  ("result", result)], a')
      | (inl msg, a') => (error_reply msg, a')
      end
  end.

(** [SELECT ... LIMIT ?]: a negative limit is no limit. *)
Definition select_limit (limit : Z) (t : list Row) : list Row :=
  if limit <? 0 then t else firstn (Z.to_nat limit) t.

Definition row_dict (r : Row) : pyval :=
  PDict [("order_id", order_id r); ("product", product r);
         ("store", store r); ("date", date r)].

(** [list_returns].  A limit outside 64 bits cannot be bound to
    [LIMIT ?]: the OverflowError is caught at the end of the tool. *)
Definition list_returns (limit : Z) (a : Agent) : pyval :=
  match returns (db a) with
  | None =>
      PDict [("status", PStr "error"); ("error", PStr "returns 表不存在");
             ("db_path", PStr DB_PATH)]
  | Some t =>
      if in_int64 limit then
        let result := map row_dict (select_limit limit t) in
        PDict [("status", PStr "ok"); ("rows", PList result);
               ("count", PInt (Z.of_nat (List.length result)));
               ("db_path", PStr DB_PATH)]
      else error_reply "Python int too large to convert to SQLite INTEGER"
  end.

End Tools.

End Retrieval.

(** ** json.loads *)

(** The decoder of Python's [json] module on byte strings in UTF-8, for
    the texts the scenarios below feed it.  Numbers with a fraction or an
    exponent, the literals [NaN] and [Infinity] and [\u] escapes are not
    decoded here: such a text is reported as an error.  On every other
    text the result is the decoder's: duplicate keys keep the last
    value, nothing may follow the value but white space. *)
Module Json.

Definition backslash : ascii := "092"%char.

Definition is_ws (c : ascii) : bool :=
  Ascii.eqb c " "%char || Ascii.eqb c "009"%char
  || Ascii.eqb c "010"%char || Ascii.eqb c "013"%char.

Fixpoint skip_ws (s : string) : string :=
  match s with
  | String c r => if is_ws c then skip_ws r else s
  | EmptyString => s
  end.

Definition unescape (c : ascii) : option ascii :=
  if Ascii.eqb c dq then Some dq
  else if Ascii.eqb c backslash then Some backslash
  else if Ascii.eqb c "/"%char then Some "/"%char
  else if Ascii.eqb c "b"%char then Some "008"%char
  else if Ascii.eqb c "f"%char then Some "012"%char
  else if Ascii.eqb c "n"%char then Some "010"%char
  else if Ascii.eqb c "r"%char then Some "013"%char
  else if Ascii.eqb c "t"%char then Some "009"%char
  else None.

Definition cons_fst (c : ascii) (r : option (string * string)) :
  option (string * string) :=
  match r with Some (x, rest) => Some (String c x, rest) | None => None end.

(** The characters of a string after its opening quote, and what
    follows the closing quote. *)
Fixpoint chars (s : string) : option (string * string) :=
  match s with
  | EmptyString => None
  | String c r =>
      if Ascii.eqb c dq then Some (EmptyString, r)
      else if Ascii.eqb c backslash then
        match r with
        | String e r' =>
            match unescape e with
            | Some x => cons_fst x (chars r')
            | None => None
            end
        | EmptyString => None
        end
      else if (nat_of_ascii c <? 32)%nat then None
      else cons_fst c (chars r)
  end.

Definition digit (c : ascii) : option Z :=
  let n := nat_of_ascii c in
  if ((48 <=? n) && (n <=? 57))%nat then Some (Z.of_nat n - 48) else None.

Fixpoint digits (s : string) (acc : Z) : Z * string :=
  match s with
  | String c r =>
      match digit c with
      | Some d => digits r (10 * acc + d)
      | None => (acc, s)
      end
  | EmptyString => (acc, s)
  end.

(** What may not follow the integer part of a number decoded here. *)
Definition starts_fraction (s : string) : bool :=
  match s with
  | String c _ =>
      Ascii.eqb c "."%char || Ascii.eqb c "e"%char || Ascii.eqb c "E"%char
  | EmptyString => false
  end.

(** An integer without sign: [0], or a non-zero digit and more digits. *)
Definition natural (s : string) : option (Z * string) :=
  match s with
  | String c r =>
      match digit c with
      | Some 0 => if starts_fraction r then None else Some (0, r)
      | Some d =>
          let (n, rest) := digits r d in
          if starts_fraction rest then None else Some (n, rest)
      | None => None
      end
  | EmptyString => None
  end.

Definition literal (w : string) (v : pyval) (s : string) :
  option (pyval * string) :=
  if String.prefix w s
  then Some (v, String.substring (String.length w)
                  (String.length s - String.length w) s)
  else None.

Fixpoint value (fuel : nat) (s : string) : option (pyval * string) :=
  match fuel with
  | O => None
  | S n =>
      match s with
      | EmptyString => None
      | String c r =>
          if Ascii.eqb c "{"%char then
            match skip_ws r with
            | String "}"%char r' => Some (PDict [], r')
            | r1 => members n r1 []
            end
          else if Ascii.eqb c "["%char then
            match skip_ws r with
            | String "]"%char r' => Some (PList [], r')
            | r1 => elements n r1 []
            end
          else if Ascii.eqb c dq then
            match chars r with
            | Some (x, rest) => Some (PStr x, rest)
            | None => None
            end
          else if Ascii.eqb c "-"%char then
            match natural r with
            | Some (z, rest) => Some (PInt (- z), rest)
            | None => None
            end
          else if Ascii.eqb c "t"%char then literal "true" (PBool true) s
          else if Ascii.eqb c "f"%char then literal "false" (PBool false) s
          else if Ascii.eqb c "n"%char then literal "null" PNone s
          else
            match natural s with
            | Some (z, rest) => Some (PInt z, rest)
            | None => None
            end
      end
  end

with elements (fuel : nat) (s : string) (acc : list pyval) :
  option (pyval * string) :=
  match fuel with
  | O => None
  | S n =>
      match value n s with
      | Some (v, r) =>
          match skip_ws r with
          | String ","%char r' => elements n (skip_ws r') (acc ++ [v])%list
          | String "]"%char r' => Some (PList (acc ++ [v])%list, r')
          | _ => None
          end
      | None => None
      end
  end

with members (fuel : nat) (s : string) (acc : pydict) :
  option (pyval * string) :=
  match fuel with
  | O => None
  | S n =>
      match s with
      | String c r =>
          if Ascii.eqb c dq then
            match chars r with
            | Some (k, r1) =>
                match skip_ws r1 with
                | String ":"%char r2 =>
                    match value n (skip_ws r2) with
                    | Some (v, r3) =>
                        match skip_ws r3 with
                        | String ","%char r4 =>
                            members n (skip_ws r4) (dict_set acc k v)
                        | String "}"%char r4 =>
                            Some (PDict (dict_set acc k v), r4)
                        | _ => None
                        end
                    | None => None
                    end
                | _ => None
                end
            | None => None
            end
          else None
      | EmptyString => None
      end
  end.

Definition json_loads (s : string) : exn + pyval :=
  match value (S (String.length s)) (skip_ws s) with
  | Some (v, r) =>
      match skip_ws r with
      | EmptyString => inr v
      | _ => inl JSONDecodeError
      end
  | None => inl JSONDecodeError
  end.

End Json.

(** ** A test deployment *)

(** One machine runs the coordinator and both agents; the retrieval
    agent's [DB_PATH] is the file [returns.db] the coordinator looks at
    on start-up.  The model, the CSV file and the reporting agent are
    canned.  The examples below run the code on this deployment. *)
Module Scenario.

(** [str(v)] on the values met here: no float is formatted, and the
    strings hold no quote, backslash or control character. *)
Fixpoint py_repr (v : pyval) : string :=
  match v with
  | PNone => "None"
  | PBool true => "True"
  | PBool false => "False"
  | PInt z => NilZero.string_of_int (Z.to_int z)
  | PFloat _ => "<float>"
  | PStr s => "'" ++ s ++ "'"
  | PList l =>
      "[" ++ (fix items (l : list pyval) : string :=
                match l with
                | [] => EmptyString
                | [x] => py_repr x
                | x :: r => py_repr x ++ ", " ++ items r
                end) l ++ "]"
  | PDict d =>
      "{" ++ (fix items (d : pydict) : string :=
                match d with
                | [] => EmptyString
                | [(k, x)] => "'" ++ k ++ "': " ++ py_repr x
                | (k, x) :: r => "'" ++ k ++ "': " ++ py_repr x ++ ", " ++ items r
                end) d ++ "}"
  | PCallToolResult sc =>
      "CallToolResult(structured_content=" ++ py_repr sc ++ ")"
  end.

Definition py_str (v : pyval) : string :=
  match v with PStr s => s | _ => py_repr v end.

Record World : Type := mkWorld {
  oracle : string;                 (** what the model answers *)
  retrieval : Retrieval.Agent;     (** the retrieval agent *)
  report_reply : pyval             (** what the reporting agent answers *)
}.

Definition DB_PATH : string := "returns.db".

Definition record (o p s d : string) : Retrieval.Series :=
  [("order_id", PStr o); ("product", PStr p); ("store", PStr s);
   ("date", PStr d)].

(** The file [sample.csv]. *)
Definition sample : Retrieval.DataFrame :=
  [record "A001" "keyboard" "Taipei" "2024-01-05";
   record "A002" "mouse" "Tainan" "2024-01-06";
   record "A003" "monitor" "Taipei" "2024-01-09"].

(** A file with the columns [product], [store] and [date] only. *)
Definition anonymous : Retrieval.DataFrame :=
  [[("product", PStr "keyboard"); ("store", PStr "Taipei");
    ("date", PStr "2024-01-05")]].

(** A file whose [product] cells are numbers and whose [store] cell is
    empty, which pandas reads as the NaN [0x7FF8000000000000]. *)
Definition coded : Retrieval.DataFrame :=
  [[("order_id", PInt 1001); ("product", PInt 123);
    ("store", PFloat 9221120237041090560); ("date", PStr "2024-01-05")]].

Definition path_exists (path : string) : bool :=
  String.eqb path "sample.csv" || String.eqb path "anonymous.csv"
  || String.eqb path "coded.csv".

Definition read_csv (path : string) : string + Retrieval.DataFrame :=
  if String.eqb path "sample.csv" then inr sample
  else if String.eqb path "anonymous.csv" then inr anonymous
  else if String.eqb path "coded.csv" then inr coded
  else inl "No such file or directory".

(** The uuids the agent draws, in order. *)
Definition uuid4 (n : nat) : string :=
  match n with
  | O => "3f2b8c1e-5d47-4a09-9c6e-0b1d2e3f4a5b"
  | S O => "d94a7e60-1c2b-4f38-8a7d-6e5f4c3b2a19"
  | _ => "7b0c5a12-9e8d-4c7b-a6f5-e4d3c2b1a098"
  end.

(** The table was created by [ingest_csv]: no constraint, and every
    value of the files above binds. *)
Definition refused (o p s d : pyval) : option string := None.

(** The SQL chain could not be built. *)
Definition chain : option (string -> Retrieval.Agent ->
                           (string + pyval) * Retrieval.Agent) := None.

(** No cell of the files above is a double other than a NaN: the
    rendering of a double is never consulted. *)
Definition float_text (bits : Z) : string := "0.0".

Definition ingest_csv :=
  Retrieval.ingest_csv path_exists read_csv uuid4 py_str refused float_text.
Definition query_db := Retrieval.query_db chain.
Definition list_returns := Retrieval.list_returns DB_PATH.

Definition llm_invoke (messages : list (string * string)) (w : World) :
  (exn + string) * World :=
  (inr (oracle w), w).

Definition set_retrieval (w : World) (a : Retrieval.Agent) : World :=
  mkWorld (oracle w) a (report_reply w).

(** The tools behind the two URLs; arguments of the wrong type are
    refused before the tool runs. *)
Definition call_tool (url name : string) (args : pyval) (w : World) :
  (exn + pyval) * World :=
  match args with
  | PDict d =>
      if String.eqb name "ingest_csv" then
        match dict_get d "path" with
        | Some (PStr path) =>
            let (r, a) := ingest_csv path (retrieval w) in
            (inr (PCallToolResult r), set_retrieval w a)
        | _ => (inl (OtherError "invalid arguments"), w)
        end
      else if String.eqb name "query_db" then
        match dict_get d "prompt" with
        | Some (PStr prompt) =>
            let (r, a) := query_db prompt (retrieval w) in
            (inr (PCallToolResult r), set_retrieval w a)
        | _ => (inl (OtherError "invalid arguments"), w)
        end
      else if String.eqb name "list_returns" then
        match dict_get_default d "limit" (PInt 500) with
        | PInt limit =>
            (inr (PCallToolResult (list_returns limit (retrieval w))), w)
        | _ => (inl (OtherError "invalid arguments"), w)
        end
      else if String.eqb name "generate_excel_report" then
        (inr (PCallToolResult (report_reply w)), w)
      else (inl (OtherError "unknown tool"), w)
  | _ => (inl (OtherError "invalid arguments"), w)
  end.

(** [SELECT COUNT( * ) FROM returns] fails while the table is missing. *)
Definition select_count (w : World) : (exn + Z) * World :=
  match Retrieval.returns (Retrieval.db (retrieval w)) with
  | Some t => (inr (Z.of_nat (List.length t)), w)
  | None => (inl (OtherError "no such table: returns"), w)
  end.

Definition RETRIEVAL_URL : string := "http://localhost:8080/mcp".
Definition REPORT_URL : string := "http://localhost:8000/mcp".

Definition interpret_with_llm :=
  interpret_with_llm World llm_invoke Json.json_loads.
Definition process_request :=
  process_request World llm_invoke Json.json_loads call_tool py_str
    RETRIEVAL_URL REPORT_URL.
Definition init_db :=
  init_db World call_tool select_count RETRIEVAL_URL.

(** A fresh machine, and one whose table holds the sample. *)
Definition fresh : Retrieval.Agent :=
  Retrieval.mkAgent (Retrieval.mkDb None 0) O.

Definition loaded : Retrieval.Agent := snd (ingest_csv "sample.csv" fresh).

Definition report_ok : pyval :=
  PDict [("status", PStr "ok"); ("file_name", PStr "returns_report.xlsx");
         ("file_base64", PStr "UEsDBBQ="); ("message", PStr "Excel 報表生成成功")].

(** The state of a request that starts with no call made. *)
Definition start (answer : string) (a : Retrieval.Agent) : state World :=
  mkState (mkWorld answer a report_ok) [].

(** The JSON text of a plan [{"tool": t, "args": {}}]. *)
Definition plan_text (tool : string) : string :=
  "{" ++ quoted "tool" ++ ": " ++ quoted tool ++ ", "
      ++ quoted "args" ++ ": {}}".

End Scenario.

(** ** base64 *)

(** [base64.b64encode] and [base64.b64decode] as CPython's [binascii]
    computes them; bytes are strings of Rocq, one character per byte. *)
Module Base64.

Definition alphabet : string :=
  "ABCDEFGHIJKLMNOPQRSTUVWXYZabcdefghijklmnopqrstuvwxyz0123456789+/".

Definition pad : ascii := "="%char.

(** [table_b2a_base64[n]]. *)
Definition b2a_char (n : N) : ascii :=
  match String.get (N.to_nat n) alphabet with Some c => c | None => pad end.

Fixpoint position (c : ascii) (s : string) (i : N) : option N :=
  match s with
  | EmptyString => None
  | String x r => if Ascii.eqb x c then Some i else position c r (N.succ i)
  end.

(** [table_a2b_base64[c]], [None] for the entries that are not below 64. *)
Definition a2b_char (c : ascii) : option N := position c alphabet 0%N.

(** [binascii.b2a_base64(data, newline=False)]. *)
Fixpoint b2a_base64 (data : string) : string :=
  match data with
  | EmptyString => EmptyString
  | String x EmptyString =>
      let a := N_of_ascii x in
      String (b2a_char (a / 4)) (String (b2a_char (a mod 4 * 16))
        (String pad (String pad EmptyString)))
  | String x (String y EmptyString) =>
      let a := N_of_ascii x in
      let b := N_of_ascii y in
      String (b2a_char (a / 4)) (String (b2a_char (a mod 4 * 16 + b / 16))
        (String (b2a_char (b mod 16 * 4)) (String pad EmptyString)))
  | String x (String y (String z r)) =>
      let a := N_of_ascii x in
      let b := N_of_ascii y in
      let c := N_of_ascii z in
      String (b2a_char (a / 4)) (String (b2a_char (a mod 4 * 16 + b / 16))
        (String (b2a_char (b mod 16 * 4 + c / 64)) (String (b2a_char (c mod 64))
           (b2a_base64 r))))
  end.

(** [binascii.a2b_base64(data)], not strict: the loop over the
    characters with its position in the quad, the bits left over, the
    pads seen and the bytes written. *)
Fixpoint a2b_loop (data : string) (quad_pos : nat) (leftchar : N)
    (pads : nat) (bin : string) : exn + string :=
  match data with
  | EmptyString =>
      if Nat.eqb quad_pos 0 then inr bin
      else if Nat.eqb quad_pos 1
      then inl (OtherError "Invalid base64-encoded string")
      else inl (OtherError "Incorrect padding")
  | String this_ch r =>
      if Ascii.eqb this_ch pad then
        if (2 <=? quad_pos)%nat then
          if (4 <=? quad_pos + S pads)%nat then inr bin
          else a2b_loop r quad_pos leftchar (S pads) bin
        else a2b_loop r quad_pos leftchar pads bin
      else
        match a2b_char this_ch with
        | None => a2b_loop r quad_pos leftchar pads bin
        | Some v =>
            match quad_pos with
            | O => a2b_loop r 1 v O bin
            | 1%nat =>
                a2b_loop r 2 (v mod 16) O
                  (bin ++ String (ascii_of_N (leftchar * 4 + v / 16)) EmptyString)
            | 2%nat =>
                a2b_loop r 3 (v mod 4) O
                  (bin ++ String (ascii_of_N (leftchar * 16 + v / 4)) EmptyString)
            | _ =>
                a2b_loop r 0 0%N O
                  (bin ++ String (ascii_of_N (leftchar * 64 + v)) EmptyString)
            end
        end
  end.

Definition a2b_base64 (data : string) : exn + string :=
  a2b_loop data 0 0%N O EmptyString.

Fixpoint is_ascii (s : string) : bool :=
  match s with
  | EmptyString => true
  | String c r => (nat_of_ascii c <? 128)%nat && is_ascii r
  end.

(** [base64.b64encode(data).decode("utf-8")]. *)
Definition b64encode (data : string) : string := b2a_base64 data.

(** [base64.b64decode(s)] on a str. *)
Definition b64decode (s : string) : exn + string :=
  if is_ascii s then a2b_base64 s
  else inl (OtherError "string argument should contain only ASCII characters").

End Base64.

(** ** coordinator.py: process_endpoint *)

(** What the endpoint hands to FastAPI: a [FileResponse] or the value
    to render as the JSON body. *)
Inductive Response : Type :=
| FileResponse (path filename media_type : string)
| Body (content : pyval).

Definition XLSX : string :=
  "application/vnd.openxmlformats-officedocument.spreadsheetml.sheet".

Fixpoint ends_with_slash (s : string) : bool :=
  match s with
  | EmptyString => false
  | String c EmptyString => Ascii.eqb c "/"%char
  | String _ r => ends_with_slash r
  end.

(** [os.path.join(a, b)] of [posixpath]. *)
Definition os_path_join (a b : string) : string :=
  if String.prefix "/" b then b
  else if String.eqb a EmptyString || ends_with_slash a then a ++ b
  else a ++ "/" ++ b.

(** [base64.b64decode(v)]: a value that is no string is a TypeError. *)
Definition py_b64decode (v : pyval) : exn + string :=
  match v with
  | PStr s => Base64.b64decode s
  | _ => inl TypeError
  end.

(** [os.path.join(dir, v)] with the name it joined. *)
Definition py_path_join (dir : string) (v : pyval) : exn + string * string :=
  match v with
  | PStr name => inr (os_path_join dir name, name)
  | _ => inl TypeError
  end.

Section Endpoint.

Variable World : Type.
Variable llm_invoke : list (string * string) -> World -> (exn + string) * World.
Variable json_loads : string -> exn + pyval.
Variable call_tool : string -> string -> pyval -> World -> (exn + pyval) * World.
Variable py_str : pyval -> string.
Variables RETRIEVAL_URL REPORT_URL : string.
(** [tempfile.gettempdir()]. *)
Variable gettempdir : string.
(** [open(path, "wb")] and [f.write(data)]. *)
Variable write_file : string -> string -> World -> (exn + unit) * World.

Local Notation "x <- m ;; k" := (bind World m (fun x => k))
  (at level 61, m at next level, right associativity).

Definition write (path data : string) : M World unit :=
  fun s =>
    let (r, w) := write_file path data (world s) in
    (r, mkState w (calls s)).

Definition process_endpoint (prompt : string) : M World Response :=
  result <- process_request World llm_invoke json_loads call_tool py_str
              RETRIEVAL_URL REPORT_URL prompt ;;
  match result with
  | PDict d =>
      if eq_str (dict_get_default d "status" PNone) "ok"
         && dict_mem d "file_base64"
      then
        file_bytes <- lift World (py_b64decode (dict_get_default d "file_base64" PNone)) ;;
        let file_name := dict_get_default d "file_name" (PStr "returns_report.xlsx") in
        joined <- lift World (py_path_join gettempdir file_name) ;;
        let (tmp_path, name) := joined in
        _ <- write tmp_path file_bytes ;;
        ret World (FileResponse tmp_path name XLSX)
      else ret World (Body result)
  | _ => ret World (Body result)
  end.

End Endpoint.

(** ** agents/retrieval_agents.py: the lazily built globals *)

Module Lazy.

(** A chain runs a prompt against the database and may raise. *)
Definition Chain : Type :=
  string -> Retrieval.Agent -> (string + pyval) * Retrieval.Agent.

Section Globals.

Variables Llm Database : Type.

(** What the constructors meet at the time of a call: the environment
    variable, [ChatOpenAI(...)], [SQLDatabase(create_engine(...))] and
    [SQLDatabaseChain.from_llm]. *)
Record Env : Type := mkEnv {
  GITHUB_TOKEN : option string;
  ChatOpenAI : string -> exn + Llm;
  SQLDatabase : exn + Database;
  from_llm : Llm -> Database -> exn + Chain
}.

(** The module globals [_llm] and [_db_chain]. *)
Record Globals : Type := mkGlobals {
  _llm : option Llm;
  _db_chain : option Chain
}.

Definition get_llm (env : Env) (g : Globals) : (exn + Llm) * Globals :=
  match _llm g with
  | Some l => (inr l, g)
  | None =>
      match GITHUB_TOKEN env with
      | None => (inl (OtherError "請先設定 GITHUB_TOKEN"), g)
      | Some token =>
          if String.eqb token EmptyString
          then (inl (OtherError "請先設定 GITHUB_TOKEN"), g)
          else
            match ChatOpenAI env token with
            | inl e => (inl e, g)
            | inr l => (inr l, mkGlobals (Some l) (_db_chain g))
            end
      end
  end.

Definition get_db_chain (env : Env) (g : Globals) : option Chain * Globals :=
  match _db_chain g with
  | Some c => (Some c, g)
  | None =>
      match SQLDatabase env with
      | inl _ => (None, mkGlobals (_llm g) None)
      | inr database =>
          match get_llm env g with
          | (inl _, g1) => (None, mkGlobals (_llm g1) None)
          | (inr l, g1) =>
              match from_llm env l database with
              | inl _ => (None, mkGlobals (_llm g1) None)
              | inr c => (Some c, mkGlobals (_llm g1) (Some c))
              end
          end
      end
  end.

(** [query_db] with its first line, [chain = get_db_chain()]. *)
Definition query_db (env : Env) (prompt : string) (g : Globals)
    (a : Retrieval.Agent) : pyval * Globals * Retrieval.Agent :=
  let (chain, g') := get_db_chain env g in
  let (reply, a') := Retrieval.query_db chain prompt a in
  (reply, g', a').

End Globals.

Arguments mkEnv {Llm Database} _ _ _ _.
Arguments GITHUB_TOKEN {Llm Database} _.
Arguments ChatOpenAI {Llm Database} _ _.
Arguments SQLDatabase {Llm Database} _.
Arguments from_llm {Llm Database} _ _ _.
Arguments mkGlobals {Llm} _ _.
Arguments _llm {Llm} _.
Arguments _db_chain {Llm} _.
Arguments get_llm {Llm Database} _ _.
Arguments get_db_chain {Llm Database} _ _.
Arguments query_db {Llm Database} _ _ _ _.

End Lazy.

(** The keys of the table are at most the recorded sequence. *)
Definition keys_bounded (d : Retrieval.Db) : Prop :=
  Forall (fun r => Retrieval.id r <= Retrieval.seq d) (Retrieval.table d).

(** ** agents/report_agents.py *)

Module Report.

(** [str(type(v))]. *)
Definition type_repr (v : pyval) : string :=
  match v with
  | PNone => "<class 'NoneType'>"
  | PBool _ => "<class 'bool'>"
  | PInt _ => "<class 'int'>"
  | PFloat _ => "<class 'float'>"
  | PStr _ => "<class 'str'>"
  | PList _ => "<class 'list'>"
  | PDict _ => "<class 'dict'>"
  | PCallToolResult _ => "<class 'fastmcp.client.client.CallToolResult'>"
  end.

Definition required_cols : list string :=
  ["order_id"; "product"; "store"; "date"].

(** The rows when every one of them is a dict. *)
Fixpoint as_dicts (rows : list pyval) : option (list pydict) :=
  match rows with
  | [] => Some []
  | PDict d :: r =>
      match as_dicts r with Some ds => Some (d :: ds) | None => None end
  | _ => None
  end.

Definition error_reply (msg : string) : pyval :=
  PDict [("status", PStr "error"); ("message", PStr msg)].

Section Tool.

(** The reporting agent's surroundings: its model and its disk. *)
Variable World : Type.
(** The string column labels of [pd.DataFrame(rows)] when some row is
    not a dict; building the frame may raise. *)
Variable irregular_columns : list pyval -> exn + list string.
(** [str] of a set of strings. *)
Variable set_str : list string -> string.
(** The statistics, the findings asked of the model, the workbook
    written to [OUTPUT_FILE] and read back: a raise, the text of the
    exception caught around the writing, or the bytes of the file. *)
Variable write_report : list pyval -> World -> (exn + (string + string)) * World.

(** [set(pd.DataFrame(rows).columns)], as far as strings go: the keys
    of the rows when all are dicts. *)
Definition columns (rows : list pyval) : exn + list string :=
  match as_dicts rows with
  | Some ds => inr (concat (map (map fst) ds))
  | None => irregular_columns rows
  end.

(** [required_cols - set(df.columns)]. *)
Definition missing (cols : list string) : list string :=
  filter (fun c => negb (existsb (String.eqb c) cols)) required_cols.

Definition generate_excel_report (rows : pyval) (w : World) :
  (exn + pyval) * World :=
  let rows :=
    match rows with
    | PDict d => if dict_mem d "rows" then dict_get_default d "rows" PNone else rows
    | _ => rows
    end in
  match rows with
  | PList [] => (inr (error_reply "rows 為空，無法生成報表"), w)
  | PList l =>
      match columns l with
      | inl e => (inl e, w)
      | inr cols =>
          match missing cols with
          | _ :: _ => (inr (error_reply ("缺少欄位: " ++ set_str (missing cols))), w)
          | [] =>
              match write_report l w with
              | (inl e, w') => (inl e, w')
              | (inr (inl msg), w') =>
                  (inr (error_reply ("生成 Excel 失敗: " ++ msg)), w')
              | (inr (inr file_bytes), w') =>
                  (inr (PDict [("status", PStr "ok");
                               ("file_name", PStr "returns_report.xlsx");
                               ("file_base64", PStr (Base64.b64encode file_bytes));
                               ("message", PStr "Excel 報表生成成功")]), w')
              end
          end
      end
  | _ => (inr (error_reply ("rows 格式錯誤: " ++ type_repr rows)), w)
  end.

End Tool.

End Report.

(** ** A canned deployment *)

(** The model, the agents and the disk answer what the world holds:
    the model's text or failure, one reply or failure per tool name,
    and the files written so far, newest first. *)
Module Mock.

Record World : Type := mkWorld {
  model : exn + string;
  agent : string -> exn + pyval;
  count : exn + Z;
  disk : list (string * string)
}.

Definition llm_invoke (messages : list (string * string)) (w : World) :
  (exn + string) * World := (model w, w).

Definition call_tool (url name : string) (args : pyval) (w : World) :
  (exn + pyval) * World := (agent w name, w).

Definition select_count (w : World) : (exn + Z) * World := (count w, w).

Definition write_file (path data : string) (w : World) :
  (exn + unit) * World :=
  (inr tt, mkWorld (model w) (agent w) (count w) ((path, data) :: disk w)).

Definition RETRIEVAL_URL : string := "http://retrieval:8080/mcp".
Definition REPORT_URL : string := "http://report:8000/mcp".

Definition interpret_with_llm :=
  interpret_with_llm World llm_invoke Json.json_loads.
Definition process_request :=
  process_request World llm_invoke Json.json_loads call_tool Scenario.py_str
    RETRIEVAL_URL REPORT_URL.
Definition process_endpoint :=
  process_endpoint World llm_invoke Json.json_loads call_tool Scenario.py_str
    RETRIEVAL_URL REPORT_URL "/tmp" write_file.
Definition init_db := init_db World call_tool select_count RETRIEVAL_URL.

(** A request that starts with no call made and an empty disk. *)
Definition start (text : exn + string) (replies : string -> exn + pyval) :
  state World :=
  mkState (mkWorld text replies (inl (OtherError "no such table: returns")) []) [].

(** The JSON text of a plan [{"tool": t, "args": a}]. *)
Definition plan_with (tool args : string) : string :=
  "{" ++ quoted "tool" ++ ": " ++ quoted tool ++ ", "
      ++ quoted "args" ++ ": " ++ args ++ "}".

(** The reporting agent on its own: the workbook is a fixed string of
    bytes, sets are printed as Python prints lists. *)
Definition workbook : string := "PK-workbook-bytes".

Definition irregular_columns (rows : list pyval) : exn + list string :=
  inl (OtherError "cannot build the frame").

Definition set_str (l : list string) : string :=
  Scenario.py_repr (PList (map PStr l)).

Definition write_report (rows : list pyval) (w : unit) :
  (exn + (string + string)) * unit := (inr (inr workbook), w).

Definition generate_excel_report :=
  Report.generate_excel_report unit irregular_columns set_str write_report.

(** Agents that give every tool the same answer. *)
Definition always (r : exn + pyval) : string -> exn + pyval := fun _ => r.

(** Agents that list [rows] and answer anything else with [reply]. *)
Definition reporter (rows : pyval) (reply : exn + pyval) : string -> exn + pyval :=
  fun name =>
    if String.eqb name "list_returns"
    then inr (PCallToolResult (PDict [("rows", rows)]))
    else reply.

(** A chain that answers with the prompt, and environments with and
    without what the chain needs. *)
Definition echo : Lazy.Chain := fun prompt a => (inr (PStr prompt), a).

Definition ready : Lazy.Env unit unit :=
  Lazy.mkEnv (Some "ghp_0123456789") (fun _ => inr tt) (inr tt)
    (fun _ _ => inr echo).

Definition no_token : Lazy.Env unit unit :=
  Lazy.mkEnv None (fun _ => inr tt) (inr tt) (fun _ _ => inr echo).

Definition no_database : Lazy.Env unit unit :=
  Lazy.mkEnv (Some "ghp_0123456789") (fun _ => inr tt)
    (inl (OtherError "unable to open database file")) (fun _ _ => inr echo).

Definition nothing_built : Lazy.Globals unit := Lazy.mkGlobals None None.

End Mock.

(** * Properties *)

(** ** The normaliser *)

Lemma dict_get_default_some (d : pydict) (k : string) (v dflt : pyval) :
  dict_get d k = Some v -> dict_get_default d k dflt = v.
Proof. unfold dict_get_default. now intros ->. Qed.

(** On a reply wrapped in a [CallToolResult], the code follows the
    order of the specification without exception. *)
Lemma unwrap_rows_structured (sc : pyval) :
  unwrap_rows (PCallToolResult sc) = normalize_spec (PCallToolResult sc).
Proof.
  destruct sc as [| | | | |l|d|sc']; try reflexivity.
  cbn [unwrap_rows normalize_spec]. unfold steps_1_2, dict_mem, dict_get_default.
  destruct (dict_get d "rows") as [v|]; [reflexivity|].
  destruct (dict_get d "result") as [[| | | | |l|d'|sc']|]; reflexivity.
Qed.

(** On a plain mapping it does so outside [off_order]. *)
Lemma unwrap_rows_mapping (d : pydict) :
  off_order (PDict d) = false ->
  unwrap_rows (PDict d) = normalize_spec (PDict d).
Proof.
  cbn [unwrap_rows normalize_spec off_order].
  unfold steps_1_2, py_or, dict_mem, dict_get_default.
  destruct (dict_get d "rows") as [v|].
  - destruct (truthy v) eqn:T; [reflexivity|]. cbn [negb andb].
    destruct v as [| | | | |[|x l]|d'|sc']; try discriminate.
    destruct (dict_get d "result"); [discriminate | reflexivity].
  - cbn [truthy].
    destruct (dict_get d "result") as [[| | | | |l|d'|sc']|];
      (discriminate || reflexivity).
Qed.

(** [unwrap_rows] is a total function from replies to values: it
    returns on every reply, [None], error envelopes and unrecognised
    shapes included.  Outside the plain mappings of [off_order] its
    result is the one the six-step resolution order gives: the embedded
    sequence for the enumerated shapes and the empty sequence for
    [None], for an error envelope [{status, message}], plain or
    structured, and for every other shape. *)
Theorem unwrap_rows_follows_resolution_order (resp : pyval) :
  (off_order resp = false -> unwrap_rows resp = normalize_spec resp)
  /\ unwrap_rows PNone = PList []
  /\ (forall status message : pyval,
        unwrap_rows (PDict [("status", status); ("message", message)]) = PList []
        /\ unwrap_rows (PCallToolResult
                          (PDict [("status", status); ("message", message)]))
           = PList []).
Proof.
  split; [|split; [reflexivity | intros; split; reflexivity]].
  destruct resp as [| | | | |l|d|sc]; try reflexivity.
  - apply unwrap_rows_mapping.
  - intros _. apply unwrap_rows_structured.
Qed.

Lemma unwrap_rows_follows_resolution_order_witness :
  unwrap_rows (PCallToolResult
                 (PDict [("status", PStr "ok");
                         ("rows", PList [PStr "r1"; PStr "r2"]);
                         ("count", PInt 2)]))
  = PList [PStr "r1"; PStr "r2"]
  /\ unwrap_rows (PDict [("result", PList [PStr "r1"])]) = PList [PStr "r1"].
Proof.
  split.
  - rewrite (proj1 (unwrap_rows_follows_resolution_order _)); reflexivity.
  - rewrite (proj1 (unwrap_rows_follows_resolution_order _)); reflexivity.
Defined.

(** C3.  The code breaks the claim on the plain-mapping line.  On the
    plain mapping [{"result": 5}] no step of the resolution order
    matches and the claim asks for the empty sequence; the code returns
    [5], which the branch for a [CallToolResult] would not, for it
    tests that [result] is a list.  On a plain mapping with an empty
    [rows] beside a [result] the embedded [rows] is not what comes
    back. *)
Lemma unwrap_rows_result_not_a_sequence :
  normalize_spec (PDict [("result", PInt 5)]) = PList []
  /\ unwrap_rows (PDict [("result", PInt 5)]) = PInt 5
  /\ unwrap_rows (PCallToolResult (PDict [("result", PInt 5)])) = PList []
  /\ unwrap_rows (PDict [("result", PInt 5)])
     <> normalize_spec (PDict [("result", PInt 5)])
  /\ unwrap_rows (PDict [("rows", PList []); ("result", PList [PStr "r1"])])
     <> normalize_spec (PDict [("rows", PList []); ("result", PList [PStr "r1"])]).
Proof. repeat split; discriminate. Qed.

(** C4.  On the plain mapping [{"rows": [], "result": [r]}] step 1
    matches and gives the empty [rows]; the code returns [result]. *)
Theorem unwrap_rows_mapping_skips_empty_rows :
  let r := PDict [("order_id", PStr "A001"); ("product", PStr "keyboard");
                  ("store", PStr "Taipei"); ("date", PStr "2024-01-05")] in
  let reply := [("rows", PList []); ("result", PList [r])] in
  dict_mem reply "rows" = true
  /\ steps_1_2 reply = Some (PList [])
  /\ unwrap_rows (PDict reply) = PList [r]
  /\ unwrap_rows (PCallToolResult (PDict reply)) = PList [].
Proof. repeat split. Qed.

Lemma dict_get_set_same (d : pydict) (k : string) (v : pyval) :
  dict_get (dict_set d k v) k = Some v.
Proof.
  induction d as [|[k' v'] r IH]; cbn.
  - now rewrite String.eqb_refl.
  - destruct (String.eqb k' k) eqn:E; cbn; rewrite E; [reflexivity | exact IH].
Qed.

Lemma dict_get_set_other (d : pydict) (k k' : string) (v : pyval) :
  k' <> k -> dict_get (dict_set d k v) k' = dict_get d k'.
Proof.
  intros N. induction d as [|[k0 v0] r IH]; cbn.
  - destruct (String.eqb k k') eqn:E; [|reflexivity].
    apply String.eqb_eq in E. now subst.
  - destruct (String.eqb k0 k) eqn:E; cbn.
    + destruct (String.eqb k0 k') eqn:E'; [|reflexivity].
      apply String.eqb_eq in E, E'. exfalso. apply N. congruence.
    + now rewrite IH.
Qed.

Lemma count_calls_app (name : string) (cs cs' : list Call) :
  count_calls name (cs ++ cs') = (count_calls name cs + count_calls name cs')%nat.
Proof. unfold count_calls. now rewrite filter_app, length_app. Qed.

Lemma count_calls_single (name : string) (c : Call) :
  (count_calls name [c] <= 1)%nat.
Proof. unfold count_calls. cbn. destruct (String.eqb _ _); cbn; lia. Qed.

(** ** The router and the dispatcher *)

Section CoordinatorFacts.

Variable World : Type.
Variable llm_invoke : list (string * string) -> World -> (exn + string) * World.
Variable json_loads : string -> exn + pyval.
Variable call_tool : string -> string -> pyval -> World -> (exn + pyval) * World.
Variable select_count : World -> (exn + Z) * World.
Variable py_str : pyval -> string.
Variables RETRIEVAL_URL REPORT_URL : string.

Abbreviation route := (interpret_with_llm World llm_invoke json_loads).
Abbreviation handle :=
  (process_request World llm_invoke json_loads call_tool py_str
     RETRIEVAL_URL REPORT_URL).
Abbreviation reconcile := (init_db World call_tool select_count RETRIEVAL_URL).

(** The router talks to the model only. *)
Lemma route_calls (prompt : string) (s s1 : state World) r :
  route prompt s = (r, s1) -> calls s1 = calls s.
Proof.
  unfold interpret_with_llm, bind, invoke.
  destruct (llm_invoke _ (world s)) as [[e|content] w]; cbn.
  - now intros [= _ <-].
  - destruct (json_loads content); unfold ret; now intros [= _ <-].
Qed.

(** Entering the dispatcher once the router has returned. *)
Ltac routed H :=
  unfold process_request; unfold bind at 1; rewrite H;
  unfold bind, lift, ret, raise, call; cbn.

(** C1 (amended).  Whatever text the model returns, the router
    returns and does not raise.  When [json.loads] raises on the text
    the result is the sentinel, whose tool is ["none"], whose args are
    empty and which has an [error] field; when [json.loads] returns a
    value the result is that value as it stands: the router looks for
    no [tool] key. *)
Theorem interpret_with_llm_returns_parsed_or_sentinel
    (prompt content : string) (s : state World) (w : World) :
  llm_invoke [("system", system_msg); ("user", prompt)] (world s)
    = (inr content, w) ->
  exists plan,
    route prompt s = (inr plan, mkState w (calls s))
    /\ (forall e, json_loads content = inl e ->
         plan = sentinel
         /\ py_get plan "tool" PNone = inr (PStr "none")
         /\ py_get plan "args" PNone = inr (PDict [])
         /\ py_contains plan "error" = inr true)
    /\ (forall v, json_loads content = inr v -> plan = v).
Proof.
  intros H. unfold interpret_with_llm, bind, invoke. rewrite H.
  destruct (json_loads content) as [e|v] eqn:J.
  - exists sentinel. split; [reflexivity|]. split.
    + intros _ _. repeat split.
    + discriminate.
  - exists v. split; [reflexivity|]. split.
    + discriminate.
    + now intros v' [= ->].
Qed.

(** C2.  A request routed to the report tool whose listing, asked with
    limit 500, normalises to the empty sequence gets the error
    envelope with its message; the only remote call is the listing,
    none goes to [generate_excel_report]. *)
Theorem report_without_rows_short_circuits
    (prompt : string) (s s1 : state World) (plan : pydict)
    (resp : pyval) (w : World) :
  route prompt s = (inr (PDict plan), s1) ->
  dict_get plan "tool" = Some (PStr "generate_report") ->
  call_tool RETRIEVAL_URL "list_returns" (PDict [("limit", PInt 500)])
    (world s1) = (inr resp, w) ->
  unwrap_rows resp = PList [] ->
  exists s',
    handle prompt s =
      (inr (PDict [("status", PStr "error");
                   ("message", PStr "無資料，無法生成報表")]), s')
    /\ calls s' =
       (calls s ++ [mkCall RETRIEVAL_URL "list_returns"
                      (PDict [("limit", PInt 500)])])%list
    /\ count_calls "generate_excel_report" (calls s')
       = count_calls "generate_excel_report" (calls s).
Proof.
  intros Hr Ht Hc Hu.
  routed Hr. rewrite (dict_get_default_some _ _ _ _ Ht). cbn.
  rewrite Hc, Hu. cbn.
  eexists. split; [reflexivity|]. cbn.
  rewrite (route_calls _ _ _ _ Hr). split; [reflexivity|].
  unfold count_calls. rewrite filter_app, length_app. cbn. lia.
Qed.

(** C5.  A request routed to the list tool whose listing normalises
    to a sequence of N rows gets [{status: "ok", rows: <the N rows>}]. *)
Theorem list_returns_envelope
    (prompt : string) (s s1 : state World) (plan : pydict)
    (resp : pyval) (w : World) (rows : list pyval) (N : nat) :
  route prompt s = (inr (PDict plan), s1) ->
  dict_get plan "tool" = Some (PStr "list_returns") ->
  call_tool RETRIEVAL_URL "list_returns"
    (dict_get_default plan "args" (PDict [])) (world s1) = (inr resp, w) ->
  unwrap_rows resp = PList rows ->
  List.length rows = N ->
  exists out,
    fst (handle prompt s)
      = inr (PDict [("status", PStr "ok"); ("rows", PList out)])
    /\ out = rows /\ List.length out = N.
Proof.
  intros Hr Ht Hc Hu HN.
  routed Hr. rewrite (dict_get_default_some _ _ _ _ Ht). cbn.
  rewrite Hc, Hu. cbn. now exists rows.
Qed.

(** C6.  A request routed to the query tool with args that lack
    [prompt] calls [query_db] with the args extended by the original
    instruction under [prompt], every other key as it was; and in
    either case the reply is the agent's structured payload as it
    came, not normalised. *)
Theorem query_db_defaults_prompt_and_passes_through
    (prompt : string) (s s1 : state World) (plan args : pydict) :
  route prompt s = (inr (PDict plan), s1) ->
  dict_get plan "tool" = Some (PStr "query_db") ->
  dict_get_default plan "args" (PDict []) = PDict args ->
  (dict_mem args "prompt" = false ->
   let args' := dict_set args "prompt" (PStr prompt) in
   dict_get args' "prompt" = Some (PStr prompt)
   /\ (forall k, k <> "prompt" -> dict_get args' k = dict_get args k)
   /\ forall sc w,
       call_tool RETRIEVAL_URL "query_db" (PDict args') (world s1)
         = (inr (PCallToolResult sc), w) ->
       handle prompt s =
         (inr sc,
          mkState w (calls s ++ [mkCall RETRIEVAL_URL "query_db" (PDict args')])))
  /\ (dict_mem args "prompt" = true ->
      forall sc w,
        call_tool RETRIEVAL_URL "query_db" (PDict args) (world s1)
          = (inr (PCallToolResult sc), w) ->
        handle prompt s =
          (inr sc,
           mkState w (calls s ++ [mkCall RETRIEVAL_URL "query_db" (PDict args)]))).
Proof.
  intros Hr Ht Ha. split.
  - intros Hm. cbn zeta. split; [apply dict_get_set_same|].
    split; [intros k Hk; now apply dict_get_set_other|].
    intros sc w Hc. routed Hr.
    rewrite (dict_get_default_some _ _ _ _ Ht), Ha. cbn.
    rewrite Hm. cbn. rewrite Hc. cbn.
    now rewrite (route_calls _ _ _ _ Hr).
  - intros Hm sc w Hc. routed Hr.
    rewrite (dict_get_default_some _ _ _ _ Ht), Ha. cbn.
    rewrite Hm. cbn. rewrite Hc. cbn.
    now rewrite (route_calls _ _ _ _ Hr).
Qed.

(** C7.  A routing decision whose tool is ["none"], or any other value
    without a branch, or missing, gets the error envelope whose
    message is the unknown-task text followed by the decision; no
    remote call is made. *)
Theorem unknown_tool_error_envelope
    (prompt : string) (s s1 : state World) (plan : pydict) :
  route prompt s = (inr (PDict plan), s1) ->
  recognized (dict_get_default plan "tool" PNone) = false ->
  handle prompt s =
    (inr (PDict [("status", PStr "error");
                 ("message", PStr ("未知的任務: " ++ py_str (PDict plan)))]),
     s1)
  /\ calls s1 = calls s.
Proof.
  intros Hr Hn. split; [|exact (route_calls _ _ _ _ Hr)].
  unfold recognized in Hn.
  apply orb_false_iff in Hn as [Hn H4].
  apply orb_false_iff in Hn as [Hn H3].
  apply orb_false_iff in Hn as [H1 H2].
  unfold process_request. unfold bind at 1. rewrite Hr.
  unfold bind, lift, py_get, ret.
  now rewrite H1, H2, H3, H4.
Qed.

(** C8 (amended).  A reply of the dispatcher with status ["error"] is
    either an envelope the dispatcher built, [{status: "error",
    message: <string>}], or the payload of the agent answering
    [query_db] or [generate_excel_report], passed through as it came. *)
Theorem error_envelope_built_or_passed_through
    (prompt : string) (s s' : state World) (out : pyval) :
  handle prompt s = (inr out, s') ->
  is_error out = true ->
  (exists msg, out = PDict [("status", PStr "error"); ("message", PStr msg)])
  \/ (exists url name args w reply w',
        (name = "query_db" \/ name = "generate_excel_report")
        /\ call_tool url name args w = (inr reply, w')
        /\ out = payload reply).
Proof.
  unfold process_request. unfold bind at 1.
  destruct (route prompt s) as [[e|plan] s1]; [discriminate|].
  destruct plan as [| | | | | |plan|]; try discriminate.
  unfold bind, lift, py_get, ret, raise, call.
  destruct (eq_str (dict_get_default plan "tool" PNone) "ingest_csv").
  { destruct (call_tool _ _ _ _) as [[e|r] w]; [discriminate|].
    intros [= <- _]. discriminate. }
  destruct (eq_str (dict_get_default plan "tool" PNone) "query_db").
  { destruct (py_contains _ _) as [e|present]; [discriminate|].
    destruct present.
    - destruct (call_tool _ _ _ _) as [[e|r] w] eqn:C; [discriminate|].
      intros [= <- _] _. right. do 6 eexists. split; [now left|]. eauto.
    - destruct (py_setitem _ _ _) as [e|a]; [discriminate|].
      destruct (call_tool _ _ _ _) as [[e|r] w] eqn:C; [discriminate|].
      intros [= <- _] _. right. do 6 eexists. split; [now left|]. eauto. }
  destruct (eq_str (dict_get_default plan "tool" PNone) "list_returns").
  { destruct (call_tool _ _ _ _) as [[e|r] w]; [discriminate|].
    destruct (py_len _); [discriminate|].
    intros [= <- _]. discriminate. }
  destruct (eq_str (dict_get_default plan "tool" PNone) "generate_report").
  { destruct (call_tool _ _ _ _) as [[e|r] w]; [discriminate|]. cbn.
    destruct (negb _).
    - intros [= <- _] _. left. eauto.
    - destruct (call_tool _ _ _ _) as [[e|r'] w'] eqn:C; [discriminate|].
      intros [= <- _] _. right. do 6 eexists. split; [now right|]. eauto. }
  intros [= <- _] _. left. eauto.
Qed.

(** C9.  When the store reports a positive count the start-up check
    makes no call.  In every case it returns having made at most one
    [ingest_csv] call.  Over two runs, when the store reports a
    positive count after the first, at most one [ingest_csv] call is
    made in all. *)
Theorem init_db_ingests_at_most_once (s : state World) :
  (forall c w, select_count (world s) = (inr c, w) -> 0 < c ->
     reconcile s = (inr tt, mkState w (calls s)))
  /\ (exists s1, reconcile s = (inr tt, s1)
       /\ (count_calls "ingest_csv" (calls s1)
           <= S (count_calls "ingest_csv" (calls s)))%nat)
  /\ (forall r1 s1 c w r2 s2,
       reconcile s = (r1, s1) ->
       select_count (world s1) = (inr c, w) -> 0 < c ->
       reconcile s1 = (r2, s2) ->
       (count_calls "ingest_csv" (calls s2)
        <= S (count_calls "ingest_csv" (calls s)))%nat).
Proof.
  assert (One : forall t : state World, exists t1,
             reconcile t = (inr tt, t1)
             /\ (count_calls "ingest_csv" (calls t1)
                 <= S (count_calls "ingest_csv" (calls t)))%nat).
  { intros t. unfold init_db, bind, try_catch, count_returns, call, ret.
    destruct (select_count (world t)) as [[e|c] w]; cbn.
    - destruct (call_tool _ _ _ w) as [[e'|r] w']; cbn;
        eexists; (split; [reflexivity|]); cbn [calls];
        rewrite count_calls_app;
        match goal with
        | |- context [count_calls ?n [?c]] =>
            pose proof (count_calls_single n c)
        end; lia.
    - destruct (0 <? c).
      + eexists. split; [reflexivity|]. cbn [calls]. lia.
      + cbn [world calls]. destruct (call_tool _ _ _ w) as [[e'|r] w']; cbn;
          eexists; (split; [reflexivity|]); cbn [calls];
          rewrite count_calls_app;
          match goal with
          | |- context [count_calls ?n [?c]] =>
              pose proof (count_calls_single n c)
          end; lia. }
  assert (Zero : forall (t : state World) c w,
             select_count (world t) = (inr c, w) -> 0 < c ->
             reconcile t = (inr tt, mkState w (calls t))).
  { intros t c w H P. unfold init_db, bind, try_catch, count_returns, ret.
    rewrite H. cbn. apply Z.ltb_lt in P. now rewrite P. }
  split; [apply Zero|]. split; [apply One|].
  intros r1 s1 c w r2 s2 H1 Hc P H2.
  rewrite (Zero s1 c w Hc P) in H2. injection H2 as _ <-. cbn.
  destruct (One s) as [t1 [E L]]. rewrite E in H1. injection H1 as _ <-.
  exact L.
Qed.

End CoordinatorFacts.

(** ** The ingestion tool *)

Module RetrievalFacts.
Import Retrieval.

Section Ingestion.

Variable path_exists : string -> bool.
Variable read_csv : string -> string + DataFrame.
Variable uuid4 : nat -> string.
Variable py_str : pyval -> string.
Variable refused : pyval -> pyval -> pyval -> pyval -> option string.
Variable float_text : Z -> string.

Abbreviation ingest :=
  (ingest_csv path_exists read_csv uuid4 py_str refused float_text).
Abbreviation loop := (insert_rows uuid4 py_str refused float_text).
Abbreviation binds := (bindings uuid4 py_str).
Abbreviation recs := (records uuid4 py_str float_text).
Abbreviation accepted := (Retrieval.accepted refused float_text).
Abbreviation put := (insert float_text).
Abbreviation kept := (stored float_text).
Abbreviation binds_ok := (bindable float_text).

(** A successful INSERT: what is stored, and what it needed. *)
Lemma insert_inr (o p s dt : pyval) (d d' : Db) :
  put o p s dt d = inr d' ->
  d' = mkDb (Some (table d ++ [mkRow (seq d + 1) (kept o) (kept p) (kept s) (kept dt)])%list)
         (seq d + 1)
  /\ seq d < 2 ^ 63 - 1
  /\ binds_ok o = true /\ binds_ok p = true
  /\ binds_ok s = true /\ binds_ok dt = true.
Proof.
  unfold insert, stored, bindable.
  destruct (column_text float_text o); [discriminate|].
  destruct (column_text float_text p); [discriminate|].
  destruct (column_text float_text s); [discriminate|].
  destruct (column_text float_text dt); [discriminate|].
  destruct (seq d <? 2 ^ 63 - 1) eqn:K; [|discriminate].
  intros [= <-]. apply Z.ltb_lt in K. repeat split. exact K.
Qed.

Lemma insert_succeeds (o p s dt : pyval) (d : Db) :
  binds_ok o = true -> binds_ok p = true ->
  binds_ok s = true -> binds_ok dt = true ->
  seq d < 2 ^ 63 - 1 ->
  exists d', put o p s dt d = inr d'.
Proof.
  unfold insert, bindable. intros Ho Hp Hs Hd K.
  destruct (column_text float_text o); [discriminate|].
  destruct (column_text float_text p); [discriminate|].
  destruct (column_text float_text s); [discriminate|].
  destruct (column_text float_text dt); [discriminate|].
  apply Z.ltb_lt in K. rewrite K. eauto.
Qed.

(** The loop appends one row per record, in order, and advances the
    sequence by one per record. *)
Lemma insert_rows_appends (df : DataFrame) (a a' : Agent) :
  loop df a = inr a' ->
  map data (table (db a')) = (map data (table (db a)) ++ recs df (draws a))%list
  /\ Forall accepted (binds df (draws a))
  /\ seq (db a') = seq (db a) + Z.of_nat (List.length df).
Proof.
  unfold records.
  revert a. induction df as [|row rest IH]; intros a; cbn [insert_rows bindings map].
  - intros [= <-]. rewrite app_nil_r. repeat split; [constructor | cbn; lia].
  - destruct (values uuid4 py_str (draws a) row) as [[[o p] s] dt] eqn:V.
    destruct (refused o p s dt) eqn:R; [discriminate|].
    destruct (put o p s dt (db a)) as [msg|d] eqn:P; [discriminate|].
    apply insert_inr in P as (-> & K & Bo & Bp & Bs & Bd).
    intros H. apply IH in H as (H & F & S). cbn [db draws seq table returns] in *.
    split; [|split].
    + rewrite H, map_app. cbn. now rewrite <- app_assoc.
    + constructor; [cbn; now repeat split | exact F].
    + rewrite S. cbn [List.length]. lia.
Qed.

(** It succeeds when every record is accepted and the keys suffice. *)
Lemma insert_rows_succeeds (df : DataFrame) (a : Agent) :
  Forall accepted (binds df (draws a)) ->
  seq (db a) + Z.of_nat (List.length df) < 2 ^ 63 ->
  exists a', loop df a = inr a'.
Proof.
  revert a. induction df as [|row rest IH]; intros a; cbn [insert_rows bindings].
  - intros _ _. now exists a.
  - destruct (values uuid4 py_str (draws a) row) as [[[o p] s] dt] eqn:V.
    intros F K. inversion F as [|x l A F']; subst. cbn in A.
    destruct A as (R & Bo & Bp & Bs & Bd). rewrite R.
    destruct (insert_succeeds o p s dt (db a) Bo Bp Bs Bd) as [d P];
      [cbn [List.length] in K; lia|].
    rewrite P. apply insert_inr in P as (-> & _). apply IH.
    + exact F'.
    + cbn [db seq List.length] in *. lia.
Qed.

(** With an [order_id] column the values do not depend on the draws. *)
Lemma bindings_with_order_id (df : DataFrame) (n m : nat) :
  has_order_id df = true -> binds df n = binds df m.
Proof.
  revert n m. induction df as [|row rest IH]; intros n m; cbn; [reflexivity|].
  intros H. apply andb_true_iff in H as [H1 H2].
  rewrite (IH (S n) (S m) H2). f_equal.
  unfold values, dict_get_default. unfold dict_mem in H1.
  destruct (dict_get row "order_id"); [reflexivity | discriminate].
Qed.

Lemma records_with_order_id (df : DataFrame) (n m : nat) :
  has_order_id df = true -> recs df n = recs df m.
Proof. intros H. unfold records. now rewrite (bindings_with_order_id df n m H). Qed.

Lemma records_length (df : DataFrame) (n : nat) :
  List.length (recs df n) = List.length df.
Proof.
  unfold records. rewrite length_map.
  revert n. induction df; intros n; cbn; [reflexivity | now rewrite IHdf].
Qed.

Lemma emptied_table (d : Db) : table (delete_all (create_table d)) = [].
Proof. destruct d as [[t|] q]; reflexivity. Qed.

Lemma emptied_seq (d : Db) : seq (delete_all (create_table d)) = seq d.
Proof. destruct d as [[t|] q]; reflexivity. Qed.

(** A successful run: where the reply comes from and what the table
    holds. *)
Lemma ingest_csv_ok (path : string) (a a' : Agent) (reply : pyval) :
  ingest path a = (reply, a') ->
  py_get reply "status" PNone = inr (PStr "ok") ->
  exists df,
    read_csv path = inr df
    /\ path_exists path = true
    /\ reply = PDict [("status", PStr "ok");
                      ("rows_inserted", PInt (Z.of_nat (List.length df)))]
    /\ map data (table (db a')) = recs df (draws a)
    /\ Forall accepted (binds df (draws a))
    /\ seq (db a') = seq (db a) + Z.of_nat (List.length df).
Proof.
  unfold ingest_csv.
  destruct (path_exists path); cbn [negb]; [|intros [= <- _]; discriminate].
  destruct (read_csv path) as [msg|df]; [intros [= <- _]; discriminate|].
  destruct (loop df _) as [[msg n]|a3] eqn:L; [intros [= <- _]; discriminate|].
  intros [= <- <-] _. exists df.
  apply insert_rows_appends in L as (L & F & S). cbn [db draws] in L, F, S.
  rewrite emptied_table in L. rewrite emptied_seq in S. cbn in L.
  repeat split; assumption.
Qed.

(** C10 (amended).  A successful [ingest_csv] empties the table and
    inserts one row per record of the file: the four data columns of
    the table are the values of the records as the TEXT columns store
    them, in order, [rows_inserted] is the number of records, and the
    table has that many rows.  When the file has an [order_id] column
    and the key sequence has room for as many rows again, a second run
    on the same file succeeds with the same reply and leaves the same
    data columns, the same number of rows. *)
Theorem ingest_csv_replaces_rows (path : string) (a a' : Agent) (reply : pyval) :
  ingest path a = (reply, a') ->
  py_get reply "status" PNone = inr (PStr "ok") ->
  exists df,
    read_csv path = inr df
    /\ reply = PDict [("status", PStr "ok");
                      ("rows_inserted", PInt (Z.of_nat (List.length df)))]
    /\ map data (table (db a')) = recs df (draws a)
    /\ List.length (table (db a')) = List.length df
    /\ (has_order_id df = true ->
        seq (db a') + Z.of_nat (List.length df) < 2 ^ 63 ->
        exists a'',
          ingest path a' = (reply, a'')
          /\ map data (table (db a'')) = map data (table (db a'))
          /\ List.length (table (db a'')) = List.length (table (db a'))).
Proof.
  intros H Ok.
  destruct (ingest_csv_ok _ _ _ _ H Ok) as (df & R & E & -> & D & F & _).
  exists df. split; [exact R|]. split; [reflexivity|]. split; [exact D|].
  assert (Len : List.length (table (db a')) = List.length df).
  { rewrite <- (length_map data), D. apply records_length. }
  split; [exact Len|]. intros O K.
  rewrite (bindings_with_order_id df (draws a) (draws a') O) in F.
  destruct (insert_rows_succeeds df
              (mkAgent (delete_all (create_table (db a'))) (draws a')) F)
    as [a'' L]; [cbn [db]; now rewrite emptied_seq|].
  exists a''. unfold ingest_csv. rewrite E, R. cbn [negb db draws]. rewrite L.
  split; [reflexivity|].
  apply insert_rows_appends in L as (L & _ & _). cbn [db draws] in L.
  rewrite emptied_table in L. cbn in L.
  assert (D2 : map data (table (db a'')) = map data (table (db a'))).
  { rewrite L, D. symmetry. now apply records_with_order_id. }
  split; [exact D2|].
  rewrite <- (length_map data), D2. apply length_map.
Qed.

End Ingestion.

End RetrievalFacts.

(** ** Runs on the test deployment *)

Section Runs.

Import Scenario.

(** The model answers with text that is not JSON: the sentinel. *)
Lemma interpret_with_llm_returns_parsed_or_sentinel_witness :
  exists plan,
    Scenario.interpret_with_llm "列出所有退貨" (start "I cannot help" loaded)
      = (inr plan, start "I cannot help" loaded)
    /\ (forall e, Json.json_loads "I cannot help" = inl e ->
         plan = sentinel
         /\ py_get plan "tool" PNone = inr (PStr "none")
         /\ py_get plan "args" PNone = inr (PDict [])
         /\ py_contains plan "error" = inr true)
    /\ (forall v, Json.json_loads "I cannot help" = inr v -> plan = v).
Proof.
  exact (interpret_with_llm_returns_parsed_or_sentinel
           World llm_invoke Json.json_loads "列出所有退貨" "I cannot help"
           (start "I cannot help" loaded) _ eq_refl).
Defined.

(** C1, as the claim states it, fails on a JSON object without the
    [tool] key: parsing succeeds, and the router returns the object,
    not the sentinel.  On JSON that is no object the dispatcher then
    raises. *)
Lemma interpret_with_llm_keeps_plan_without_tool :
  let text := "{" ++ quoted "args" ++ ": {}}" in
  Json.json_loads text = inr (PDict [("args", PDict [])])
  /\ dict_mem [("args", PDict [])] "tool" = false
  /\ fst (Scenario.interpret_with_llm "列出所有退貨" (start text loaded))
     = inr (PDict [("args", PDict [])])
  /\ PDict [("args", PDict [])] <> sentinel
  /\ fst (Scenario.interpret_with_llm "列出所有退貨" (start "[]" loaded))
     = inr (PList [])
  /\ fst (Scenario.process_request "列出所有退貨" (start "[]" loaded))
     = inl AttributeError.
Proof. cbv zeta. repeat split; try reflexivity. discriminate. Qed.

(** A report is asked for before any ingestion. *)
Lemma report_without_rows_short_circuits_witness :
  exists s',
    Scenario.process_request "產生 Excel 報表" (start (plan_text "generate_report") fresh)
      = (inr (PDict [("status", PStr "error");
                     ("message", PStr "無資料，無法生成報表")]), s')
    /\ calls s' =
       [mkCall RETRIEVAL_URL "list_returns" (PDict [("limit", PInt 500)])]
    /\ count_calls "generate_excel_report" (calls s') = O.
Proof.
  exact (report_without_rows_short_circuits
           World llm_invoke Json.json_loads call_tool py_str
           RETRIEVAL_URL REPORT_URL "產生 Excel 報表"
           (start (plan_text "generate_report") fresh) _ _ _ _
           eq_refl eq_refl eq_refl eq_refl).
Defined.

(** The three records of the sample are listed. *)
Lemma list_returns_envelope_witness :
  exists out,
    fst (Scenario.process_request "列出所有退貨" (start (plan_text "list_returns") loaded))
      = inr (PDict [("status", PStr "ok"); ("rows", PList out)])
    /\ out = map Retrieval.row_dict (Retrieval.table (Retrieval.db loaded))
    /\ List.length out = 3%nat.
Proof.
  exact (list_returns_envelope
           World llm_invoke Json.json_loads call_tool py_str
           RETRIEVAL_URL REPORT_URL "列出所有退貨"
           (start (plan_text "list_returns") loaded) _ _ _ _ _ 3%nat
           eq_refl eq_refl eq_refl eq_refl eq_refl).
Defined.

(** A question is routed to [query_db] with empty args; the agent's
    chain is missing and its error reply comes back as it is. *)
Lemma query_db_defaults_prompt_and_passes_through_witness :
  let args' := [("prompt", PStr "台北有幾筆退貨")] in
  dict_get args' "prompt" = Some (PStr "台北有幾筆退貨")
  /\ (forall k, k <> "prompt" -> dict_get args' k = dict_get [] k)
  /\ forall sc w,
      call_tool RETRIEVAL_URL "query_db" (PDict args')
        (world (start (plan_text "query_db") loaded))
        = (inr (PCallToolResult sc), w) ->
      Scenario.process_request "台北有幾筆退貨" (start (plan_text "query_db") loaded)
        = (inr sc,
           mkState w [mkCall RETRIEVAL_URL "query_db" (PDict args')]).
Proof.
  exact (proj1 (query_db_defaults_prompt_and_passes_through
                  World llm_invoke Json.json_loads call_tool py_str
                  RETRIEVAL_URL REPORT_URL "台北有幾筆退貨"
                  (start (plan_text "query_db") loaded) _ _ []
                  eq_refl eq_refl eq_refl) eq_refl).
Defined.

(** The model answers with the tool [none]. *)
Lemma unknown_tool_error_envelope_witness :
  Scenario.process_request "你好" (start (plan_text "none") loaded)
    = (inr (PDict [("status", PStr "error");
                   ("message",
                    PStr "未知的任務: {'tool': 'none', 'args': {}}")]),
       start (plan_text "none") loaded)
  /\ calls (start (plan_text "none") loaded) = [].
Proof.
  exact (unknown_tool_error_envelope
           World llm_invoke Json.json_loads call_tool py_str
           RETRIEVAL_URL REPORT_URL "你好"
           (start (plan_text "none") loaded) _ _ eq_refl eq_refl).
Defined.

(** C8, as the claim states it, fails on a question routed to
    [query_db] while the agent's chain is missing: the reply has
    status ["error"] and no [message] field at all, its text is under
    [error]. *)
Lemma query_db_error_has_no_message :
  let out := PDict [("status", PStr "error");
                    ("error", PStr "SQLDatabaseChain 未初始化成功")] in
  fst (Scenario.process_request "台北有幾筆退貨" (start (plan_text "query_db") loaded))
    = inr out
  /\ is_error out = true
  /\ py_contains out "message" = inr false
  /\ fst (Scenario.query_db "台北有幾筆退貨" loaded) = out.
Proof. cbv zeta. repeat split. Qed.

Lemma error_envelope_built_or_passed_through_witness :
  let out := PDict [("status", PStr "error");
                    ("error", PStr "SQLDatabaseChain 未初始化成功")] in
  (exists msg, out = PDict [("status", PStr "error"); ("message", PStr msg)])
  \/ (exists url name args w reply w',
        (name = "query_db" \/ name = "generate_excel_report")
        /\ call_tool url name args w = (inr reply, w')
        /\ out = payload reply).
Proof.
  exact (error_envelope_built_or_passed_through
           World llm_invoke Json.json_loads call_tool py_str
           RETRIEVAL_URL REPORT_URL "台北有幾筆退貨"
           (start (plan_text "query_db") loaded) _ _ eq_refl eq_refl).
Defined.

(** The first start finds no table and ingests the sample; the second
    finds three rows and makes no call. *)
Lemma init_db_ingests_at_most_once_witness :
  let s := start EmptyString fresh in
  let s1 := snd (Scenario.init_db s) in
  select_count (world s1) = (inr 3, world s1)
  /\ count_calls "ingest_csv" (calls s1) = 1%nat
  /\ Scenario.init_db s1 = (inr tt, s1)
  /\ (count_calls "ingest_csv" (calls (snd (Scenario.init_db s1))) <= 1)%nat.
Proof.
  cbv zeta. split; [reflexivity|]. split; [reflexivity|]. split.
  - exact (proj1 (init_db_ingests_at_most_once World call_tool select_count
                    RETRIEVAL_URL (snd (Scenario.init_db (start EmptyString fresh))))
             3 _ eq_refl eq_refl).
  - exact (proj2 (proj2 (init_db_ingests_at_most_once World call_tool
                           select_count RETRIEVAL_URL (start EmptyString fresh)))
             _ _ 3 _ _ _ eq_refl eq_refl eq_refl eq_refl).
Defined.

(** The sample is ingested on a fresh machine, then once more. *)
Lemma ingest_csv_replaces_rows_witness :
  fst (Scenario.ingest_csv "sample.csv" fresh)
    = PDict [("status", PStr "ok"); ("rows_inserted", PInt 3)]
  /\ map Retrieval.data (Retrieval.table (Retrieval.db loaded))
     = Retrieval.records uuid4 py_str float_text sample O
  /\ List.length (Retrieval.table (Retrieval.db loaded)) = 3%nat
  /\ exists a'',
       Scenario.ingest_csv "sample.csv" loaded
         = (fst (Scenario.ingest_csv "sample.csv" fresh), a'')
       /\ map Retrieval.data (Retrieval.table (Retrieval.db a''))
          = map Retrieval.data (Retrieval.table (Retrieval.db loaded))
       /\ List.length (Retrieval.table (Retrieval.db a''))
          = List.length (Retrieval.table (Retrieval.db loaded)).
Proof.
  destruct (RetrievalFacts.ingest_csv_replaces_rows
              path_exists read_csv uuid4 py_str refused float_text "sample.csv"
              fresh loaded _ eq_refl eq_refl) as (df & R & E & D & L & Again).
  change (inr sample = inr (A:=string) df) in R. injection R as <-.
  split; [reflexivity|]. split; [exact D|]. split; [exact L|].
  apply Again; [reflexivity | cbn; lia].
Defined.

(** Numbers in the file are listed as their text and an empty cell as
    [None], as the TEXT columns hold them. *)
Lemma ingest_csv_stores_text :
  Scenario.list_returns 500 (snd (Scenario.ingest_csv "coded.csv" fresh))
  = PDict [("status", PStr "ok");
           ("rows", PList [PDict [("order_id", PStr "1001"); ("product", PStr "123");
                                  ("store", PNone); ("date", PStr "2024-01-05")]]);
           ("count", PInt 1); ("db_path", PStr "returns.db")].
Proof. reflexivity. Qed.

(** C10, as the claim states it, fails twice over.  A second run on
    the sample leaves other keys in the table, for [DELETE] does not
    rewind the AUTOINCREMENT sequence.  A second run on a file
    without [order_id] column leaves another [order_id], drawn anew,
    in the row. *)
Lemma ingest_csv_twice_differs :
  let once := snd (Scenario.ingest_csv "sample.csv" fresh) in
  let twice := snd (Scenario.ingest_csv "sample.csv" once) in
  let once' := snd (Scenario.ingest_csv "anonymous.csv" fresh) in
  let twice' := snd (Scenario.ingest_csv "anonymous.csv" once') in
  map Retrieval.id (Retrieval.table (Retrieval.db once)) = [1; 2; 3]
  /\ map Retrieval.id (Retrieval.table (Retrieval.db twice)) = [4; 5; 6]
  /\ Retrieval.db once <> Retrieval.db twice
  /\ map Retrieval.order_id (Retrieval.table (Retrieval.db once')) = [PStr "3f2b8c1e"]
  /\ map Retrieval.order_id (Retrieval.table (Retrieval.db twice')) = [PStr "d94a7e60"]
  /\ Scenario.list_returns 500 once' <> Scenario.list_returns 500 twice'.
Proof. cbv zeta. repeat split; try reflexivity; vm_compute; discriminate. Qed.

End Runs.

(** * Further properties *)

(** ** The dispatcher, branch by branch *)

Section DispatchFacts.

Variable World : Type.
Variable llm_invoke : list (string * string) -> World -> (exn + string) * World.
Variable json_loads : string -> exn + pyval.
Variable call_tool : string -> string -> pyval -> World -> (exn + pyval) * World.
Variable select_count : World -> (exn + Z) * World.
Variable py_str : pyval -> string.
Variables RETRIEVAL_URL REPORT_URL : string.

Abbreviation route := (interpret_with_llm World llm_invoke json_loads).
Abbreviation handle :=
  (process_request World llm_invoke json_loads call_tool py_str
     RETRIEVAL_URL REPORT_URL).
Abbreviation reconcile := (init_db World call_tool select_count RETRIEVAL_URL).

Ltac enter H :=
  unfold process_request; unfold bind at 1; rewrite H;
  unfold bind, lift, ret, raise, call; cbn.

Abbreviation routed_calls := (route_calls World llm_invoke json_loads).

(** The ingest branch ignores the args of the plan: it calls
    [ingest_csv] with the path [sample.csv], and whatever the agent
    replies, an error reply included, comes back under [message] with
    status ["ok"]. *)
Theorem ingest_reply_is_wrapped_as_ok
    (prompt : string) (s s1 : state World) (plan : pydict)
    (reply : pyval) (w : World) :
  route prompt s = (inr (PDict plan), s1) ->
  dict_get plan "tool" = Some (PStr "ingest_csv") ->
  call_tool RETRIEVAL_URL "ingest_csv" (PDict [("path", PStr "sample.csv")])
    (world s1) = (inr reply, w) ->
  handle prompt s =
    (inr (PDict [("status", PStr "ok"); ("message", reply)]),
     mkState w (calls s ++ [mkCall RETRIEVAL_URL "ingest_csv"
                              (PDict [("path", PStr "sample.csv")])])%list)
  /\ is_error (PDict [("status", PStr "ok"); ("message", reply)]) = false.
Proof.
  intros Hr Ht Hc. split; [|reflexivity].
  enter Hr. rewrite (dict_get_default_some _ _ _ _ Ht). cbn.
  unfold CSV_PATH. rewrite Hc. cbn.
  now rewrite (routed_calls _ _ _ _ Hr).
Qed.

(** A plan that is not a mapping (a JSON list, string, number, [true],
    [null]) makes the dispatcher raise AttributeError before any remote
    call. *)
Theorem plan_that_is_no_mapping_raises
    (prompt : string) (s s1 : state World) (plan : pyval) :
  route prompt s = (inr plan, s1) ->
  (forall d, plan <> PDict d) ->
  handle prompt s = (inl AttributeError, s1) /\ calls s1 = calls s.
Proof.
  intros Hr Hn. split; [|exact (routed_calls _ _ _ _ Hr)].
  enter Hr. destruct plan; try reflexivity. now destruct (Hn d).
Qed.

(** A failure of the model is not caught: the router raises it, and so
    does the dispatcher, with no remote call made. *)
Theorem model_failure_propagates
    (prompt : string) (s : state World) (e : exn) (w : World) :
  llm_invoke [("system", system_msg); ("user", prompt)] (world s) = (inl e, w) ->
  route prompt s = (inl e, mkState w (calls s))
  /\ handle prompt s = (inl e, mkState w (calls s)).
Proof.
  intros H.
  assert (R : route prompt s = (inl e, mkState w (calls s))).
  { unfold interpret_with_llm, bind, invoke. now rewrite H. }
  split; [exact R|]. unfold process_request. unfold bind at 1. now rewrite R.
Qed.

(** A failure of the first remote call of a branch is not caught: the
    dispatcher raises it, the call logged.  In the report branch a
    failure of the listing is raised before the reporting agent is
    contacted. *)
Theorem remote_failure_propagates
    (prompt : string) (s s1 : state World) (plan : pydict)
    (e : exn) (w : World) :
  route prompt s = (inr (PDict plan), s1) ->
  (dict_get plan "tool" = Some (PStr "ingest_csv") ->
   call_tool RETRIEVAL_URL "ingest_csv" (PDict [("path", PStr "sample.csv")])
     (world s1) = (inl e, w) ->
   handle prompt s =
     (inl e, mkState w (calls s ++ [mkCall RETRIEVAL_URL "ingest_csv"
                                      (PDict [("path", PStr "sample.csv")])])%list))
  /\ (dict_get plan "tool" = Some (PStr "list_returns") ->
      call_tool RETRIEVAL_URL "list_returns"
        (dict_get_default plan "args" (PDict [])) (world s1) = (inl e, w) ->
      handle prompt s =
        (inl e, mkState w (calls s ++ [mkCall RETRIEVAL_URL "list_returns"
                                         (dict_get_default plan "args" (PDict []))])%list))
  /\ (dict_get plan "tool" = Some (PStr "generate_report") ->
      call_tool RETRIEVAL_URL "list_returns" (PDict [("limit", PInt 500)])
        (world s1) = (inl e, w) ->
      handle prompt s =
        (inl e, mkState w (calls s ++ [mkCall RETRIEVAL_URL "list_returns"
                                         (PDict [("limit", PInt 500)])])%list)).
Proof.
  intros Hr. pose proof (routed_calls _ _ _ _ Hr) as Hc.
  repeat split; intros Ht Hf; enter Hr;
    rewrite (dict_get_default_some _ _ _ _ Ht); cbn; unfold CSV_PATH;
    rewrite Hf; cbn; now rewrite Hc.
Qed.

(** Whatever happens, a request adds to the log of remote calls either
    nothing, or one call to the retrieval agent, or the listing with
    limit 500 followed by one [generate_excel_report] call to the
    reporting agent. *)
Theorem process_request_call_budget (prompt : string) (s : state World) :
  exists new,
    calls (snd (handle prompt s)) = (calls s ++ new)%list
    /\ (new = []
        \/ (exists name args, new = [mkCall RETRIEVAL_URL name args])
        \/ (exists rows,
              new = [mkCall RETRIEVAL_URL "list_returns" (PDict [("limit", PInt 500)]);
                     mkCall REPORT_URL "generate_excel_report"
                       (PDict [("rows", rows)])])).
Proof.
  unfold process_request. unfold bind at 1.
  destruct (route prompt s) as [[e|plan] s1] eqn:Hr;
    pose proof (routed_calls _ _ _ _ Hr) as Hc.
  { exists []. cbn. rewrite app_nil_r. auto. }
  unfold bind, lift, py_get, ret, raise, call.
  destruct plan as [| | | | | |plan|];
    try (exists []; cbn; rewrite app_nil_r; now auto).
  destruct (eq_str (dict_get_default plan "tool" PNone) "ingest_csv").
  { destruct (call_tool _ _ _ _) as [[e|r] w]; cbn; rewrite Hc;
      eexists; (split; [reflexivity|]); right; left; eauto. }
  destruct (eq_str (dict_get_default plan "tool" PNone) "query_db").
  { destruct (py_contains _ _) as [e|present];
      [exists []; cbn; rewrite app_nil_r; now auto|].
    destruct present.
    - destruct (call_tool _ _ _ _) as [[e|r] w]; cbn; rewrite Hc;
        eexists; (split; [reflexivity|]); right; left; eauto.
    - destruct (py_setitem _ _ _) as [e|a];
        [exists []; cbn; rewrite app_nil_r; now auto|].
      destruct (call_tool _ _ _ _) as [[e|r] w]; cbn; rewrite Hc;
        eexists; (split; [reflexivity|]); right; left; eauto. }
  destruct (eq_str (dict_get_default plan "tool" PNone) "list_returns").
  { destruct (call_tool _ _ _ _) as [[e|r] w]; cbn.
    - rewrite Hc. eexists; (split; [reflexivity|]); right; left; eauto.
    - destruct (py_len _); cbn; rewrite Hc;
        eexists; (split; [reflexivity|]); right; left; eauto. }
  destruct (eq_str (dict_get_default plan "tool" PNone) "generate_report").
  { destruct (call_tool _ _ _ _) as [[e|r] w]; cbn.
    - rewrite Hc. eexists; (split; [reflexivity|]); right; left; eauto.
    - destruct (negb _); cbn.
      + rewrite Hc. eexists; (split; [reflexivity|]); right; left; eauto.
      + destruct (call_tool _ _ _ _) as [[e|r'] w']; cbn; rewrite Hc,
          <- app_assoc; cbn; eexists; (split; [reflexivity|]); right; right;
          eauto. }
  exists []. cbn. rewrite app_nil_r. auto.
Qed.

(** In the report branch, when the listing normalises to a value true
    in Python, the reporting agent is called once with exactly that
    value under [rows], whatever args the plan had, and its structured
    content is the reply. *)
Theorem report_forwards_listed_rows
    (prompt : string) (s s1 : state World) (plan : pydict)
    (resp sc : pyval) (w w' : World) :
  route prompt s = (inr (PDict plan), s1) ->
  dict_get plan "tool" = Some (PStr "generate_report") ->
  call_tool RETRIEVAL_URL "list_returns" (PDict [("limit", PInt 500)])
    (world s1) = (inr resp, w) ->
  truthy (unwrap_rows resp) = true ->
  call_tool REPORT_URL "generate_excel_report"
    (PDict [("rows", unwrap_rows resp)]) w = (inr (PCallToolResult sc), w') ->
  handle prompt s =
    (inr sc,
     mkState w'
       (calls s ++
        [mkCall RETRIEVAL_URL "list_returns" (PDict [("limit", PInt 500)]);
         mkCall REPORT_URL "generate_excel_report"
           (PDict [("rows", unwrap_rows resp)])])%list).
Proof.
  intros Hr Ht H1 Hv H2. enter Hr.
  rewrite (dict_get_default_some _ _ _ _ Ht). cbn.
  rewrite H1. cbn. rewrite Hv. cbn. rewrite H2. cbn.
  now rewrite (routed_calls _ _ _ _ Hr), <- app_assoc.
Qed.

(** In the list branch an answer of the agent that carries neither
    [rows] nor [result], such as its error replies, is not reported as
    an error: the reply is [{status: "ok", rows: []}]. *)
Theorem list_branch_masks_agent_error
    (prompt : string) (s s1 : state World) (plan d : pydict) (w : World) :
  route prompt s = (inr (PDict plan), s1) ->
  dict_get plan "tool" = Some (PStr "list_returns") ->
  call_tool RETRIEVAL_URL "list_returns"
    (dict_get_default plan "args" (PDict [])) (world s1)
    = (inr (PCallToolResult (PDict d)), w) ->
  dict_mem d "rows" = false ->
  dict_mem d "result" = false ->
  fst (handle prompt s)
    = inr (PDict [("status", PStr "ok"); ("rows", PList [])]).
Proof.
  intros Hr Ht Hc H1 H2. enter Hr.
  rewrite (dict_get_default_some _ _ _ _ Ht). cbn.
  rewrite Hc. cbn. now rewrite H1, H2.
Qed.

(** In the list branch a [rows] value without a length ([null], a
    number, a boolean) makes the dispatcher raise TypeError after the
    call, at the logging of the row count. *)
Theorem list_branch_unsized_rows_raise
    (prompt : string) (s s1 : state World) (plan d : pydict)
    (v : pyval) (w : World) :
  route prompt s = (inr (PDict plan), s1) ->
  dict_get plan "tool" = Some (PStr "list_returns") ->
  call_tool RETRIEVAL_URL "list_returns"
    (dict_get_default plan "args" (PDict [])) (world s1)
    = (inr (PCallToolResult (PDict d)), w) ->
  dict_get d "rows" = Some v ->
  (v = PNone \/ (exists b, v = PBool b) \/ (exists z, v = PInt z)
   \/ (exists f, v = PFloat f)) ->
  fst (handle prompt s) = inl TypeError.
Proof.
  intros Hr Ht Hc Hv Hk. enter Hr.
  rewrite (dict_get_default_some _ _ _ _ Ht). cbn.
  rewrite Hc. cbn. unfold dict_mem, dict_get_default. rewrite Hv.
  destruct Hk as [->|[[b ->]|[[z ->]|[f ->]]]]; reflexivity.
Qed.

(** In the query branch, args that are no mapping and do not hold
    ["prompt"] ([null], a number, a boolean, a list without that
    string) make the dispatcher raise TypeError before any remote
    call. *)
Theorem query_branch_args_no_mapping_raise
    (prompt : string) (s s1 : state World) (plan : pydict) (args : pyval) :
  route prompt s = (inr (PDict plan), s1) ->
  dict_get plan "tool" = Some (PStr "query_db") ->
  dict_get plan "args" = Some args ->
  (args = PNone \/ (exists b, args = PBool b) \/ (exists z, args = PInt z)
   \/ (exists f, args = PFloat f)
   \/ (exists l, args = PList l /\ ~ In (PStr "prompt") l)) ->
  handle prompt s = (inl TypeError, s1) /\ calls s1 = calls s.
Proof.
  intros Hr Ht Ha Hk. split; [|exact (routed_calls _ _ _ _ Hr)].
  enter Hr.
  rewrite (dict_get_default_some _ _ _ _ Ht),
    (dict_get_default_some _ _ _ _ Ha). cbn.
  destruct Hk as [->|[[b ->]|[[z ->]|[[f ->]|[l [-> Hl]]]]]]; try reflexivity.
  cbn. replace (existsb (fun x => eq_str x "prompt") l) with false; [reflexivity|].
  symmetry. apply not_true_is_false. intros E.
  apply existsb_exists in E as [x [Hx Hq]].
  destruct x; try discriminate. cbn in Hq. apply String.eqb_eq in Hq.
  subst. contradiction.
Qed.

(** When the count query fails or reports no row, the start-up check
    makes exactly one [ingest_csv] call, for [sample.csv], and returns
    normally whether that call succeeds or raises. *)
Theorem init_db_ingests_when_store_is_empty
    (s : state World) (r : exn + Z) (w : World) :
  select_count (world s) = (r, w) ->
  (forall c, r = inr c -> c <= 0) ->
  exists w',
    reconcile s =
      (inr tt,
       mkState w' (calls s ++ [mkCall RETRIEVAL_URL "ingest_csv"
                                  (PDict [("path", PStr "sample.csv")])])%list).
Proof.
  intros H Hc. unfold init_db, bind, try_catch, count_returns, call, ret.
  rewrite H. unfold CSV_PATH.
  destruct r as [e|c]; cbn.
  - destruct (call_tool _ _ _ w) as [[e'|x] w']; cbn; now exists w'.
  - replace (0 <? c) with false by (symmetry; apply Z.ltb_ge; now apply Hc).
    cbn. destruct (call_tool _ _ _ w) as [[e'|x] w']; cbn; now exists w'.
Qed.

End DispatchFacts.

(** ** The endpoint *)

Lemma append_nil_r (s : string) : s ++ EmptyString = s.
Proof. induction s; cbn; [reflexivity | now rewrite IHs]. Qed.

Lemma append_assoc (s t u : string) : (s ++ t) ++ u = s ++ (t ++ u).
Proof. induction s; cbn; [reflexivity | now rewrite IHs]. Qed.

Lemma prefix_append (s t : string) : String.prefix s (s ++ t) = true.
Proof.
  induction s as [|c s IH]; cbn; [now destruct t|].
  destruct (ascii_dec c c); [exact IH | contradiction].
Qed.

Lemma os_path_join_cases (dir name : string) :
  (String.prefix "/" name = false ->
   String.prefix dir (os_path_join dir name) = true)
  /\ (String.prefix "/" name = true -> os_path_join dir name = name).
Proof.
  unfold os_path_join. split; intros H; rewrite H; [|reflexivity].
  destruct (_ || _); apply prefix_append.
Qed.

Section EndpointFacts.

Variable World : Type.
Variable llm_invoke : list (string * string) -> World -> (exn + string) * World.
Variable json_loads : string -> exn + pyval.
Variable call_tool : string -> string -> pyval -> World -> (exn + pyval) * World.
Variable py_str : pyval -> string.
Variables RETRIEVAL_URL REPORT_URL : string.
Variable gettempdir : string.
Variable write_file : string -> string -> World -> (exn + unit) * World.

Abbreviation route := (interpret_with_llm World llm_invoke json_loads).
Abbreviation handle :=
  (process_request World llm_invoke json_loads call_tool py_str
     RETRIEVAL_URL REPORT_URL).
Abbreviation endpoint :=
  (process_endpoint World llm_invoke json_loads call_tool py_str
     RETRIEVAL_URL REPORT_URL gettempdir write_file).

(** A reply of the dispatcher with status ["error"], and any reply
    without [file_base64], is rendered as the JSON body, unchanged;
    nothing is written to disk. *)
Theorem process_endpoint_renders_errors_as_json
    (prompt : string) (s s1 : state World) (result : pyval) :
  handle prompt s = (inr result, s1) ->
  (is_error result = true \/ py_contains result "file_base64" = inr false) ->
  endpoint prompt s = (inr (Body result), s1).
Proof.
  intros H K. unfold process_endpoint, bind. rewrite H.
  destruct result as [| | | | | |d|]; try reflexivity.
  destruct K as [K|K].
  - cbn in K. replace (eq_str (dict_get_default d "status" PNone) "ok") with false;
      [reflexivity|].
    destruct (dict_get_default d "status" PNone); try reflexivity.
    cbn in *. apply String.eqb_eq in K. now subst.
  - cbn in K. injection K as K. rewrite K, andb_false_r. reflexivity.
Qed.

(** A request routed to the list tool, the ingest tool or no known
    tool is never answered with a file: when the endpoint returns, it
    returns a JSON body. *)
Theorem process_endpoint_file_only_from_passthrough
    (prompt : string) (s s1 s' : state World) (plan : pydict) (resp : Response) :
  route prompt s = (inr (PDict plan), s1) ->
  eq_str (dict_get_default plan "tool" PNone) "query_db" = false ->
  eq_str (dict_get_default plan "tool" PNone) "generate_report" = false ->
  endpoint prompt s = (inr resp, s') ->
  exists body, resp = Body body.
Proof.
  intros Hr Hq Hg. unfold process_endpoint, process_request.
  unfold bind at 1. unfold bind at 1. rewrite Hr.
  unfold bind, lift, py_get, ret, raise, call. rewrite Hq, Hg.
  destruct (eq_str (dict_get_default plan "tool" PNone) "ingest_csv").
  { destruct (call_tool _ _ _ _) as [[e|r] w]; [discriminate|].
    cbn. intros [= <- _]. eauto. }
  destruct (eq_str (dict_get_default plan "tool" PNone) "list_returns").
  { destruct (call_tool _ _ _ _) as [[e|r] w]; [discriminate|].
    destruct (py_len _); [discriminate|].
    cbn. intros [= <- _]. eauto. }
  cbn. intros [= <- _]. eauto.
Qed.

(** A reply with status ["ok"] whose [file_base64] decodes is answered
    with a file: the decoded bytes are written to the join of the
    temporary directory and the file name, [returns_report.xlsx] when
    the reply names none, and the response carries that path, that name
    and the spreadsheet media type. *)
Theorem process_endpoint_writes_decoded_file
    (prompt : string) (s s1 : state World) (d : pydict)
    (text file_bytes name : string) (w : World) :
  handle prompt s = (inr (PDict d), s1) ->
  dict_get d "status" = Some (PStr "ok") ->
  dict_get d "file_base64" = Some (PStr text) ->
  Base64.b64decode text = inr file_bytes ->
  dict_get_default d "file_name" (PStr "returns_report.xlsx") = PStr name ->
  write_file (os_path_join gettempdir name) file_bytes (world s1) = (inr tt, w) ->
  endpoint prompt s =
    (inr (FileResponse (os_path_join gettempdir name) name
            "application/vnd.openxmlformats-officedocument.spreadsheetml.sheet"),
     mkState w (calls s1)).
Proof.
  intros H Hs Hf Hd Hn Hw. unfold process_endpoint, bind. rewrite H.
  rewrite (dict_get_default_some _ _ _ _ Hs). unfold dict_mem. rewrite Hf.
  rewrite (dict_get_default_some _ _ _ _ Hf), Hn. cbn.
  rewrite Hd. cbn. unfold write. now rewrite Hw.
Qed.

(** When a reply with status ["ok"] carries a [file_base64] that
    decodes and names its file, the endpoint makes one write of the
    decoded bytes and answers with the path written, or raises what
    the write raises.  That path begins with the temporary directory
    when the name does not begin with a slash, and is the name itself,
    the temporary directory unused, when it does. *)
Theorem process_endpoint_write_path
    (prompt : string) (s s1 : state World) (d : pydict)
    (text file_bytes name : string) :
  handle prompt s = (inr (PDict d), s1) ->
  dict_get d "status" = Some (PStr "ok") ->
  dict_get d "file_base64" = Some (PStr text) ->
  Base64.b64decode text = inr file_bytes ->
  dict_get d "file_name" = Some (PStr name) ->
  exists path,
    (forall r w,
       write_file path file_bytes (world s1) = (r, w) ->
       endpoint prompt s =
         (match r with
          | inr _ =>
              inr (FileResponse path name
                     "application/vnd.openxmlformats-officedocument.spreadsheetml.sheet")
          | inl e => inl e
          end, mkState w (calls s1)))
    /\ (String.prefix "/" name = false -> String.prefix gettempdir path = true)
    /\ (String.prefix "/" name = true -> path = name).
Proof.
  intros H Hs Hf Hd Hn. exists (os_path_join gettempdir name).
  split; [|apply os_path_join_cases].
  intros r w Hw. unfold process_endpoint, bind. rewrite H.
  rewrite (dict_get_default_some _ _ _ _ Hs). unfold dict_mem. rewrite Hf.
  rewrite (dict_get_default_some _ _ _ _ Hf),
    (dict_get_default_some _ _ _ _ Hn). cbn -[os_path_join].
  rewrite Hd. cbn -[os_path_join]. unfold write. rewrite Hw.
  now destruct r as [e|[]].
Qed.

(** With a [file_base64] that is no string, or that does not decode,
    or a [file_name] that is no string, the endpoint raises and writes
    nothing. *)
Theorem process_endpoint_bad_file_reply_raises
    (prompt : string) (s s1 : state World) (d : pydict) (v : pyval) :
  handle prompt s = (inr (PDict d), s1) ->
  dict_get d "status" = Some (PStr "ok") ->
  dict_get d "file_base64" = Some v ->
  ((forall t, v <> PStr t)
   \/ (exists t e, v = PStr t /\ Base64.b64decode t = inl e)
   \/ (exists t b n, v = PStr t /\ Base64.b64decode t = inr b
        /\ dict_get d "file_name" = Some n /\ forall x, n <> PStr x)) ->
  exists e, endpoint prompt s = (inl e, s1).
Proof.
  intros H Hs Hf K. unfold process_endpoint, bind. rewrite H.
  rewrite (dict_get_default_some _ _ _ _ Hs). unfold dict_mem. rewrite Hf.
  rewrite (dict_get_default_some _ _ _ _ Hf). cbn.
  destruct K as [K|[(t & e & -> & D)|(t & b & n & -> & D & N & X)]].
  - destruct v; try (now eexists). now destruct (K s0).
  - cbn. rewrite D. now eexists.
  - cbn. rewrite D. cbn. rewrite (dict_get_default_some _ _ _ _ N).
    destruct n; try (now eexists). now destruct (X s0).
Qed.

End EndpointFacts.

(** ** base64 *)

Module Base64Facts.
Import Base64.

Lemma a2b_b2a_char (n : N) : (n < 64)%N -> a2b_char (b2a_char n) = Some n.
Proof.
  intros H. destruct n as [|p]; [reflexivity|].
  do 6 (destruct p as [p|p|]; try reflexivity); lia.
Qed.

Lemma b2a_char_not_pad (n : N) : (n < 64)%N -> Ascii.eqb (b2a_char n) pad = false.
Proof.
  intros H. destruct n as [|p]; [reflexivity|].
  do 6 (destruct p as [p|p|]; try reflexivity); lia.
Qed.

Lemma b2a_char_ascii (n : N) :
  (n < 64)%N -> (nat_of_ascii (b2a_char n) <? 128)%nat = true.
Proof.
  intros H. destruct n as [|p]; [reflexivity|].
  do 6 (destruct p as [p|p|]; try reflexivity); lia.
Qed.

Lemma string_ind3 (P : string -> Prop) :
  P EmptyString ->
  (forall x, P (String x EmptyString)) ->
  (forall x y, P (String x (String y EmptyString))) ->
  (forall x y z r, P r -> P (String x (String y (String z r)))) ->
  forall s, P s.
Proof.
  intros H0 H1 H2 H3.
  fix IH 1. intros [|x [|y [|z r]]];
    [exact H0 | apply H1 | apply H2 | apply H3; apply IH].
Qed.

Ltac sextets :=
  repeat match goal with
  | x : ascii |- _ =>
      lazymatch goal with
      | _ : (N_of_ascii x < 256)%N |- _ => fail
      | _ => pose proof (N_ascii_bounded x)
      end
  end.

Ltac step n :=
  rewrite (b2a_char_not_pad n), (a2b_b2a_char n)
    by (sextets; Zify.zify; Z.to_euclidean_division_equations; lia).

Ltac arith := sextets; Zify.zify; Z.to_euclidean_division_equations; lia.

Ltac byte x :=
  match goal with
  | |- context [ascii_of_N ?e] =>
      replace e with (N_of_ascii x) by arith; rewrite (ascii_N_embedding x)
  end.

Lemma a2b_loop_b2a (data : string) :
  forall pads bin, a2b_loop (b2a_base64 data) 0 0%N pads bin = inr (bin ++ data).
Proof.
  induction data as [|x|x y|x y z r IH] using string_ind3; intros pads bin.
  - cbn. now rewrite append_nil_r.
  - cbn [b2a_base64 a2b_loop].
    step (N_of_ascii x / 4)%N. step (N_of_ascii x mod 4 * 16)%N.
    cbn. byte x. reflexivity.
  - cbn [b2a_base64 a2b_loop].
    step (N_of_ascii x / 4)%N. step (N_of_ascii x mod 4 * 16 + N_of_ascii y / 16)%N.
    step (N_of_ascii y mod 16 * 4)%N.
    cbn. byte x. byte y. now rewrite append_assoc.
  - cbn [b2a_base64 a2b_loop].
    step (N_of_ascii x / 4)%N. step (N_of_ascii x mod 4 * 16 + N_of_ascii y / 16)%N.
    step (N_of_ascii y mod 16 * 4 + N_of_ascii z / 64)%N. step (N_of_ascii z mod 64)%N.
    cbn [Nat.eqb]. rewrite IH. byte x. byte y. byte z.
    now rewrite !append_assoc.
Qed.

Lemma b64decode_b64encode (data : string) :
  b64decode (b64encode data) = inr data.
Proof.
  unfold b64decode, b64encode.
  replace (is_ascii (b2a_base64 data)) with true.
  - unfold a2b_base64. now rewrite a2b_loop_b2a.
  - symmetry. induction data as [|x|x y|x y z r IH] using string_ind3;
      cbn [b2a_base64 is_ascii]; rewrite ?b2a_char_ascii by arith; try reflexivity.
    cbn [andb]. exact IH.
Qed.

End Base64Facts.

(** ** The reporting agent *)

Module ReportFacts.
Import Report.

Section Tool.

Variable World : Type.
Variable irregular_columns : list pyval -> exn + list string.
Variable set_str : list string -> string.
Variable write_report : list pyval -> World -> (exn + (string + string)) * World.

Abbreviation generate :=
  (generate_excel_report World irregular_columns set_str write_report).

Lemma as_dicts_row_dicts (t : list Retrieval.Row) :
  as_dicts (map Retrieval.row_dict t)
  = Some (map (fun r => [("order_id", Retrieval.order_id r);
                         ("product", Retrieval.product r);
                         ("store", Retrieval.store r);
                         ("date", Retrieval.date r)]) t).
Proof. induction t as [|r t IH]; cbn; [reflexivity | now rewrite IH]. Qed.

Lemma missing_of_absent (c : string) (cols : list string) :
  In c required_cols -> ~ In c cols -> In c (missing cols).
Proof.
  intros Hc Hn. unfold missing. apply filter_In. split; [exact Hc|].
  apply negb_true_iff, not_true_is_false. intros E.
  apply existsb_exists in E as [x [Hx Hq]]. apply String.eqb_eq in Hq.
  now subst.
Qed.

Lemma keys_without (c : string) (ds : list pydict) :
  (forall d, In d ds -> dict_mem d c = false) ->
  ~ In c (concat (map (map fst) ds)).
Proof.
  intros H Hin. apply in_concat in Hin as [ks [Hks Hc]].
  apply in_map_iff in Hks as [d [<- Hd]]. specialize (H d Hd).
  clear Hd. unfold dict_mem in H. induction d as [|[k v] d IH]; cbn in *.
  - contradiction.
  - destruct (String.eqb k c) eqn:E; [discriminate|].
    destruct Hc as [->|Hc]; [now rewrite String.eqb_refl in E | now apply IH].
Qed.

(** Rows that are dicts none of which has one of the four required
    keys are refused with the missing-columns message, before the model
    is asked anything or a file is written. *)
Theorem generate_excel_report_requires_columns
    (r : pyval) (l : list pyval) (ds : list pydict) (c : string) (w : World) :
  as_dicts (r :: l) = Some ds ->
  In c ["order_id"; "product"; "store"; "date"] ->
  (forall d, In d ds -> dict_mem d c = false) ->
  exists lacking,
    In c lacking
    /\ generate (PList (r :: l)) w
       = (inr (PDict [("status", PStr "error");
                      ("message", PStr ("缺少欄位: " ++ set_str lacking))]), w).
Proof.
  intros Hd Hc Hk. unfold generate_excel_report, columns. rewrite Hd.
  pose proof (missing_of_absent c _ Hc (keys_without c ds Hk)) as Hm.
  exists (missing (concat (map (map fst) ds))). split; [exact Hm|].
  destruct (missing _); [contradiction | reflexivity].
Qed.

Lemma generate_checked (l : list pyval) (w w' : World)
    (cols : list string) (file_bytes : string) :
  l <> [] ->
  columns irregular_columns l = inr cols ->
  missing cols = [] ->
  write_report l w = (inr (inr file_bytes), w') ->
  generate (PList l) w
  = (inr (PDict [("status", PStr "ok");
                 ("file_name", PStr "returns_report.xlsx");
                 ("file_base64", PStr (Base64.b64encode file_bytes));
                 ("message", PStr "Excel 報表生成成功")]), w').
Proof.
  intros Hl Hc Hm Hw. unfold generate_excel_report.
  destruct l as [|x l]; [contradiction|].
  now rewrite Hc, Hm, Hw.
Qed.

(** The rows [list_returns] returns for a table that is not empty pass
    the checks of the reporting agent: when the workbook is written,
    the reply has status ["ok"] and carries the file in base64. *)
Theorem generate_excel_report_accepts_listed_rows
    (r : Retrieval.Row) (t : list Retrieval.Row) (file_bytes : string)
    (w w' : World) :
  write_report (map Retrieval.row_dict (r :: t)) w = (inr (inr file_bytes), w') ->
  generate (PList (map Retrieval.row_dict (r :: t))) w
  = (inr (PDict [("status", PStr "ok");
                 ("file_name", PStr "returns_report.xlsx");
                 ("file_base64", PStr (Base64.b64encode file_bytes));
                 ("message", PStr "Excel 報表生成成功")]), w').
Proof.
  intros H.
  eapply generate_checked;
    [discriminate
    | unfold columns; rewrite as_dicts_row_dicts; reflexivity
    | reflexivity
    | exact H].
Qed.

Lemma generate_reply_cases
    (rows reply : pyval) (w w' : World) :
  generate rows w = (inr reply, w') ->
  (exists msg, reply = PDict [("status", PStr "error"); ("message", PStr msg)])
  \/ (exists l file_bytes,
        write_report l w = (inr (inr file_bytes), w')
        /\ reply = PDict [("status", PStr "ok");
                          ("file_name", PStr "returns_report.xlsx");
                          ("file_base64", PStr (Base64.b64encode file_bytes));
                          ("message", PStr "Excel 報表生成成功")]).
Proof.
  unfold generate_excel_report.
  set (rows' := match rows with
                | PDict d => if dict_mem d "rows"
                             then dict_get_default d "rows" PNone else rows
                | _ => rows
                end).
  destruct rows' as [| | | | |l|d|sc];
    try (intros [= <- _]; left; unfold error_reply; now eauto).
  destruct l as [|r l]; [intros [= <- _]; left; unfold error_reply; now eauto|].
  destruct (columns _ _) as [e|cols]; [discriminate|].
  destruct (missing cols); [|intros [= <- _]; left; unfold error_reply; now eauto].
  destruct (write_report (r :: l) w) as [[e|[msg|file_bytes]] w0] eqn:W;
    [discriminate | intros [= <- _]; left; unfold error_reply; now eauto |].
  intros [= <- <-]. right. now exists (r :: l), file_bytes.
Qed.

(** Every reply of the tool is either [{status: "error", message:
    <string>}] or the success reply with the file name and the base64
    text of the bytes that were written. *)
Theorem generate_excel_report_reply_shape
    (rows reply : pyval) (w w' : World) :
  generate rows w = (inr reply, w') ->
  (exists msg, reply = PDict [("status", PStr "error"); ("message", PStr msg)])
  \/ (exists l file_bytes,
        write_report l w = (inr (inr file_bytes), w')
        /\ reply = PDict [("status", PStr "ok");
                          ("file_name", PStr "returns_report.xlsx");
                          ("file_base64", PStr (Base64.b64encode file_bytes));
                          ("message", PStr "Excel 報表生成成功")]).
Proof. exact (generate_reply_cases rows reply w w'). Qed.

(** Rows sent wrapped as [{"rows": v}] are treated as [v], unless [v]
    is itself such a wrapper. *)
Theorem generate_excel_report_unwraps_rows
    (d : pydict) (v : pyval) (w : World) :
  dict_get d "rows" = Some v ->
  (forall d', v = PDict d' -> dict_mem d' "rows" = false) ->
  generate (PDict d) w = generate v w.
Proof.
  intros Hv Hn. unfold generate_excel_report.
  assert (M : dict_mem d "rows" = true) by (unfold dict_mem; now rewrite Hv).
  rewrite M, (dict_get_default_some _ _ _ _ Hv).
  destruct v as [| | | | | |inner|]; try reflexivity.
  now rewrite (Hn inner eq_refl).
Qed.

End Tool.

End ReportFacts.

(** ** From the reporting agent to the caller *)

Section Pipeline.

Variable World : Type.
Variable llm_invoke : list (string * string) -> World -> (exn + string) * World.
Variable json_loads : string -> exn + pyval.
Variable call_tool : string -> string -> pyval -> World -> (exn + pyval) * World.
Variable py_str : pyval -> string.
Variables RETRIEVAL_URL REPORT_URL : string.
Variable gettempdir : string.
Variable write_file : string -> string -> World -> (exn + unit) * World.

Variable Reporter : Type.
Variable irregular_columns : list pyval -> exn + list string.
Variable set_str : list string -> string.
Variable write_report : list pyval -> Reporter -> (exn + (string + string)) * Reporter.

Abbreviation handle :=
  (process_request World llm_invoke json_loads call_tool py_str
     RETRIEVAL_URL REPORT_URL).
Abbreviation endpoint :=
  (process_endpoint World llm_invoke json_loads call_tool py_str
     RETRIEVAL_URL REPORT_URL gettempdir write_file).
Abbreviation generate :=
  (Report.generate_excel_report Reporter irregular_columns set_str write_report).

(** The bytes survive the journey: when the dispatcher returns a
    success reply of [generate_excel_report], the file the endpoint
    writes under the name [returns_report.xlsx] holds exactly the bytes
    of the workbook the reporting agent wrote, through
    [b64encode] on one side and [b64decode] on the other. *)
Theorem report_file_round_trip
    (rows reply : pyval) (a a' : Reporter)
    (prompt : string) (s s1 : state World) :
  generate rows a = (inr reply, a') ->
  py_get reply "status" PNone = inr (PStr "ok") ->
  handle prompt s = (inr reply, s1) ->
  exists l file_bytes,
    write_report l a = (inr (inr file_bytes), a')
    /\ forall w,
        write_file (os_path_join gettempdir "returns_report.xlsx") file_bytes
          (world s1) = (inr tt, w) ->
        endpoint prompt s =
          (inr (FileResponse (os_path_join gettempdir "returns_report.xlsx")
                  "returns_report.xlsx"
                  "application/vnd.openxmlformats-officedocument.spreadsheetml.sheet"),
           mkState w (calls s1)).
Proof.
  intros G Ok H.
  destruct (ReportFacts.generate_reply_cases _ _ _ _ _ _ _ _ G)
    as [[msg ->]|(l & file_bytes & W & ->)]; [discriminate|].
  exists l, file_bytes. split; [exact W|]. intros w Hw.
  unfold process_endpoint, bind. rewrite H.
  cbn -[Base64.b64decode Base64.b64encode os_path_join].
  rewrite Base64Facts.b64decode_b64encode. cbn -[os_path_join].
  unfold write. now rewrite Hw.
Qed.

End Pipeline.

(** ** The retrieval agent: listing, ingestion, keys *)

Module ListingFacts.
Import Retrieval.

Section Tools.

Variable path_exists : string -> bool.
Variable read_csv : string -> string + DataFrame.
Variable uuid4 : nat -> string.
Variable py_str : pyval -> string.
Variable refused : pyval -> pyval -> pyval -> pyval -> option string.
Variable float_text : Z -> string.
Variable DB_PATH : string.

Abbreviation ingest :=
  (ingest_csv path_exists read_csv uuid4 py_str refused float_text).
Abbreviation loop := (insert_rows uuid4 py_str refused float_text).
Abbreviation recs := (records uuid4 py_str float_text).
Abbreviation listing := (list_returns DB_PATH).

Lemma in_int64_range (z : Z) : - 2 ^ 63 <= z < 2 ^ 63 -> in_int64 z = true.
Proof.
  intros [L U]. unfold in_int64. apply andb_true_iff. split.
  - now apply Z.leb_le.
  - now apply Z.ltb_lt.
Qed.

Lemma select_limit_length (limit : Z) (t : list Row) :
  (limit < 0 -> List.length (select_limit limit t) = List.length t)
  /\ (0 <= limit ->
      Z.of_nat (List.length (select_limit limit t))
      = Z.min limit (Z.of_nat (List.length t))).
Proof.
  unfold select_limit. split; intros H.
  - apply Z.ltb_lt in H. now rewrite H.
  - replace (limit <? 0) with false by (symmetry; now apply Z.ltb_ge).
    rewrite length_firstn. lia.
Qed.

(** What the normaliser makes of a listing within the 64-bit range. *)
Lemma unwrap_listing (limit : Z) (a : Agent) :
  - 2 ^ 63 <= limit < 2 ^ 63 ->
  unwrap_rows (PCallToolResult (listing limit a))
  = PList (map row_dict (select_limit limit (table (db a)))).
Proof.
  intros R. unfold list_returns, table. rewrite (in_int64_range _ R).
  destruct (returns (db a)) as [t|]; [reflexivity|].
  cbn. unfold select_limit.
  destruct (limit <? 0); [reflexivity | now rewrite firstn_nil].
Qed.

(** On an existing table [list_returns] with a limit that fits 64 bits
    answers with status ["ok"], the first rows of the table in table
    order, and their number under [count]: all the rows for a negative
    limit, otherwise the smaller of the limit and the size of the
    table. *)
Theorem list_returns_count_and_limit (limit : Z) (a : Agent) (t : list Row) :
  returns (db a) = Some t ->
  - 2 ^ 63 <= limit < 2 ^ 63 ->
  exists rs,
    listing limit a
      = PDict [("status", PStr "ok"); ("rows", PList (map row_dict rs));
               ("count", PInt (Z.of_nat (List.length rs)));
               ("db_path", PStr DB_PATH)]
    /\ (exists rest, t = (rs ++ rest)%list)
    /\ (limit < 0 -> rs = t)
    /\ (0 <= limit ->
        Z.of_nat (List.length rs) = Z.min limit (Z.of_nat (List.length t))).
Proof.
  intros H R. exists (select_limit limit t). unfold list_returns.
  rewrite H, (in_int64_range _ R).
  rewrite length_map. split; [reflexivity|]. split; [|split].
  - unfold select_limit. destruct (limit <? 0).
    + exists []. now rewrite app_nil_r.
    + exists (skipn (Z.to_nat limit) t). now rewrite firstn_skipn.
  - intros L. unfold select_limit. apply Z.ltb_lt in L. now rewrite L.
  - apply select_limit_length.
Qed.

(** What the coordinator's normaliser makes of a [list_returns] reply:
    for a limit that fits 64 bits the listed rows, and the empty
    sequence when the table is missing; for a limit that does not, the
    empty sequence, the agent having answered an error.  With the limit
    500 of the report branch the result is false in Python exactly when
    the table has no row. *)
Theorem unwrap_rows_of_list_returns (limit : Z) (a : Agent) :
  (- 2 ^ 63 <= limit < 2 ^ 63 ->
   unwrap_rows (PCallToolResult (listing limit a))
   = PList (map row_dict (select_limit limit (table (db a)))))
  /\ (limit < - 2 ^ 63 \/ 2 ^ 63 <= limit ->
      unwrap_rows (PCallToolResult (listing limit a)) = PList [])
  /\ (truthy (unwrap_rows (PCallToolResult (listing 500 a))) = false
      <-> table (db a) = []).
Proof.
  split; [apply unwrap_listing|]. split.
  - intros O. unfold list_returns.
    replace (in_int64 limit) with false.
    + now destruct (returns (db a)).
    + symmetry. unfold in_int64. apply andb_false_iff.
      destruct O as [O|O]; [left; apply Z.leb_gt | right; apply Z.ltb_ge]; lia.
  - rewrite unwrap_listing by lia. unfold select_limit.
    change (500 <? 0) with false. cbn iota.
    replace (Z.to_nat 500) with (S 499) by lia.
    destruct (table (db a)) as [|r t]; cbn [firstn map truthy]; split; congruence.
Qed.

(** The loop gives the rows consecutive new keys. *)
Lemma insert_rows_keys (df : DataFrame) (a a' : Agent) :
  loop df a = inr a' ->
  keys_bounded (db a) ->
  NoDup (map id (table (db a))) ->
  keys_bounded (db a')
  /\ NoDup (map id (table (db a')))
  /\ seq (db a') = seq (db a) + Z.of_nat (List.length df)
  /\ exists added,
       table (db a') = (table (db a) ++ added)%list
       /\ Forall (fun r => seq (db a) < id r) added.
Proof.
  revert a. induction df as [|row rest IH]; intros a; cbn [insert_rows].
  - intros [= <-] B N. repeat split; try assumption; [cbn; lia|].
    exists []. now rewrite app_nil_r.
  - destruct (values uuid4 py_str (draws a) row) as [[[o p] s] dt].
    destruct (refused o p s dt); [discriminate|].
    destruct (insert float_text o p s dt (db a)) as [msg|d] eqn:P; [discriminate|].
    apply RetrievalFacts.insert_inr in P as (-> & _).
    intros H B N. apply IH in H as (B' & N' & S' & added & T' & F').
    + cbn [db seq table returns] in *.
      repeat split; try assumption.
      * rewrite S'. cbn [List.length]. lia.
      * eexists (mkRow (seq (db a) + 1) _ _ _ _ :: added).
        rewrite T', <- app_assoc. split; [reflexivity|].
        constructor; [cbn; lia|].
        eapply Forall_impl; [|exact F']. cbn. intros; lia.
    + unfold keys_bounded in *. cbn. apply Forall_app. split.
      * eapply Forall_impl; [|exact B]. cbn. intros; lia.
      * constructor; [cbn; lia | constructor].
    + cbn. rewrite map_app. cbn.
      apply NoDup_app; [exact N | repeat constructor; intros [] |].
      intros x Hx [<-|[]]. unfold keys_bounded in B.
      apply in_map_iff in Hx as [r [Hr Hin]].
      rewrite Forall_forall in B. specialize (B r Hin). lia.
Qed.

(** After a successful [ingest_csv] the keys of the table are pairwise
    distinct, all above the sequence the run started from, and the
    sequence has advanced by the number of records.  When the keys of
    the old rows were within the sequence, as SQLite keeps them, no new
    row has the key of a row that was deleted. *)
Theorem ingest_csv_keys_are_fresh
    (path : string) (a a' : Agent) (reply : pyval) :
  ingest path a = (reply, a') ->
  py_get reply "status" PNone = inr (PStr "ok") ->
  NoDup (map id (table (db a')))
  /\ keys_bounded (db a')
  /\ Forall (fun r => seq (db a) < id r) (table (db a'))
  /\ seq (db a') = seq (db a) + Z.of_nat (List.length (table (db a')))
  /\ (keys_bounded (db a) ->
      forall old new, In old (table (db a)) -> In new (table (db a')) ->
                      id old < id new).
Proof.
  unfold ingest_csv.
  destruct (path_exists path); cbn [negb]; [|intros [= <- _]; discriminate].
  destruct (read_csv path) as [msg|df]; [intros [= <- _]; discriminate|].
  destruct (loop df _) as [[msg n]|a3] eqn:L; [intros [= <- _]; discriminate|].
  intros [= _ <-] _.
  pose proof (RetrievalFacts.insert_rows_appends _ _ _ _ _ _ _ L) as (D & _ & _).
  apply insert_rows_keys in L as (B & N & S & added & T & F).
  - cbn [db draws] in *. rewrite RetrievalFacts.emptied_table in *.
    cbn in T, D. rewrite RetrievalFacts.emptied_seq in *.
    rewrite T in *. repeat split; try assumption.
    + rewrite S. f_equal. f_equal.
      rewrite <- (length_map data added), D.
      symmetry. apply RetrievalFacts.records_length.
    + intros Bo old new Ho Hn. unfold keys_bounded in Bo.
      rewrite Forall_forall in Bo, F. specialize (Bo old Ho).
      specialize (F new Hn). lia.
  - cbn [db]. unfold keys_bounded. rewrite RetrievalFacts.emptied_table. constructor.
  - cbn [db]. rewrite RetrievalFacts.emptied_table. constructor.
Qed.

(** A listing right after a successful [ingest_csv], with a limit that
    fits 64 bits and is negative or at least the number of records,
    returns the records of the file, in order, as the four-key dicts
    of what the TEXT columns hold. *)
Theorem list_returns_after_ingest_csv
    (path : string) (a a' : Agent) (reply : pyval) (limit : Z) :
  ingest path a = (reply, a') ->
  py_get reply "status" PNone = inr (PStr "ok") ->
  - 2 ^ 63 <= limit < 2 ^ 63 ->
  exists df,
    read_csv path = inr df
    /\ (limit < 0 \/ Z.of_nat (List.length df) <= limit ->
        unwrap_rows (PCallToolResult (listing limit a'))
        = PList (map (fun v => let '(o, p, s, dt) := v in
                               PDict [("order_id", o); ("product", p);
                                      ("store", s); ("date", dt)])
                     (recs df (draws a)))).
Proof.
  intros H Ok R.
  destruct (RetrievalFacts.ingest_csv_ok _ _ _ _ _ _ _ _ _ _ H Ok)
    as (df & Rd & _ & _ & D & _).
  exists df. split; [exact Rd|]. intros K.
  rewrite (unwrap_listing _ _ R). f_equal.
  assert (Len : List.length (table (db a')) = List.length df).
  { rewrite <- (length_map data), D. apply RetrievalFacts.records_length. }
  replace (select_limit limit (table (db a'))) with (table (db a')).
  - rewrite <- D, map_map. apply map_ext. now intros [].
  - unfold select_limit. destruct (limit <? 0) eqn:Q; [reflexivity|].
    symmetry. apply firstn_all2. apply Z.ltb_ge in Q. lia.
Qed.

(** An [ingest_csv] that does not answer ["ok"] answers an error reply
    and loses nothing: the rows, their keys and the sequence are as
    before. *)
Theorem ingest_csv_failure_keeps_rows
    (path : string) (a a' : Agent) (reply : pyval) :
  ingest path a = (reply, a') ->
  py_get reply "status" PNone <> inr (PStr "ok") ->
  (exists msg, reply = PDict [("status", PStr "error"); ("error", PStr msg)])
  /\ table (db a') = table (db a)
  /\ seq (db a') = seq (db a).
Proof.
  unfold ingest_csv.
  destruct (path_exists path); cbn [negb];
    [|intros [= <- <-] _; unfold error_reply; now eauto].
  destruct (read_csv path) as [msg|df];
    [intros [= <- <-] _; unfold error_reply; now eauto|].
  destruct (loop df _) as [[msg n]|a3].
  - intros [= <- <-] _. cbn [db]. split; [unfold error_reply; now eauto|].
    destruct (db a) as [[t|] q]; now split.
  - intros [= <- _] K. now destruct K.
Qed.

End Tools.

End ListingFacts.

(** ** The lazily built model and chain *)

Module LazyFacts.
Import Lazy.

Section Globals.

Variables Llm Database : Type.

Abbreviation Env := (Env Llm Database).
Abbreviation Globals := (Globals Llm).
Abbreviation llm := (@get_llm Llm Database).
Abbreviation chain := (@get_db_chain Llm Database).
Abbreviation query := (@Lazy.query_db Llm Database).

(** Once [get_db_chain] has returned a chain, every later call returns
    that chain and builds nothing, whatever the environment has
    become. *)
Theorem get_db_chain_is_cached (env env' : Env) (g g' : Globals) (c : Chain) :
  chain env g = (Some c, g') ->
  chain env' g' = (Some c, g').
Proof.
  unfold get_db_chain.
  destruct (_db_chain g) as [c0|] eqn:C.
  - intros [= -> <-]. now rewrite C.
  - destruct (SQLDatabase env) as [e|database]; [discriminate|].
    destruct (llm env g) as [[e|l] g1]; [discriminate|].
    destruct (from_llm env l database) as [e|c0]; [discriminate|].
    now intros [= -> <-].
Qed.

(** A failed [get_db_chain] caches no chain, so the next call tries
    again, and it never forgets a model that was built. *)
Theorem get_db_chain_failure_is_retried (env : Env) (g g' : Globals) :
  chain env g = (None, g') ->
  _db_chain g' = None
  /\ (forall l, _llm g = Some l -> _llm g' = Some l).
Proof.
  unfold get_db_chain.
  destruct (_db_chain g) as [c0|] eqn:C; [discriminate|].
  destruct (SQLDatabase env) as [e|database].
  { intros [= <-]. now split. }
  assert (K : forall r g1, llm env g = (r, g1) ->
                forall l, _llm g = Some l -> _llm g1 = Some l).
  { unfold get_llm. intros r g1 H l Hl. rewrite Hl in H. now injection H as _ <-. }
  destruct (llm env g) as [[e|l] g1] eqn:L.
  { intros [= <-]. split; [reflexivity|]. intros l Hl. cbn. exact (K _ _ eq_refl l Hl). }
  destruct (from_llm env l database) as [e|c0]; [|discriminate].
  intros [= <-]. split; [reflexivity|]. intros l0 Hl. cbn. exact (K _ _ eq_refl l0 Hl).
Qed.

(** Without a token ([GITHUB_TOKEN] unset or empty) and with nothing
    built yet, [get_llm] raises, [get_db_chain] returns no chain, and
    [query_db] answers its error reply without raising and without
    touching the database. *)
Theorem query_db_without_token
    (env : Env) (g : Globals) (prompt : string) (a : Retrieval.Agent) :
  (GITHUB_TOKEN env = None \/ GITHUB_TOKEN env = Some EmptyString) ->
  _llm g = None ->
  _db_chain g = None ->
  (exists e, llm env g = (inl e, g))
  /\ chain env g = (None, g)
  /\ query env prompt g a
     = (PDict [("status", PStr "error");
               ("error", PStr "SQLDatabaseChain 未初始化成功")], g, a).
Proof.
  intros T L C.
  assert (E : exists e, llm env g = (inl e, g)).
  { unfold get_llm. rewrite L. destruct T as [-> | ->]; cbn; eauto. }
  assert (N : chain env g = (None, g)).
  { unfold get_db_chain. rewrite C. destruct E as [e ->].
    destruct g as [ml mc]. cbn in *. subst.
    now destruct (SQLDatabase env). }
  split; [exact E|]. split; [exact N|].
  unfold Lazy.query_db. now rewrite N.
Qed.

(** Once [get_llm] has returned a model, every later call returns that
    model: the token is read and [ChatOpenAI] built at most once. *)
Theorem get_llm_is_cached (env env' : Env) (g g' : Globals) (l : Llm) :
  llm env g = (inr l, g') ->
  llm env' g' = (inr l, g').
Proof.
  unfold get_llm.
  destruct (_llm g) as [l0|] eqn:L.
  - intros [= -> <-]. now rewrite L.
  - destruct (GITHUB_TOKEN env) as [t|]; [|discriminate].
    destruct (String.eqb t EmptyString); [discriminate|].
    destruct (ChatOpenAI env t) as [e|l0]; [discriminate|].
    now intros [= -> <-].
Qed.

End Globals.

End LazyFacts.

(** ** Runs of the further properties *)

Section MoreRuns.

Import Mock.

(** The agent refuses the file; the coordinator still answers ["ok"]. *)
Lemma ingest_reply_is_wrapped_as_ok_witness :
  let refusal := PCallToolResult (Retrieval.error_reply "CSV 檔案不存在: sample.csv") in
  let s := start (inr (plan_with "ingest_csv" "{}")) (always (inr refusal)) in
  fst (Mock.process_request "匯入 CSV" s)
    = inr (PDict [("status", PStr "ok"); ("message", refusal)])
  /\ calls (snd (Mock.process_request "匯入 CSV" s))
     = [mkCall RETRIEVAL_URL "ingest_csv" (PDict [("path", PStr "sample.csv")])].
Proof.
  cbv zeta.
  pose proof (ingest_reply_is_wrapped_as_ok
                World llm_invoke Json.json_loads call_tool Scenario.py_str
                RETRIEVAL_URL REPORT_URL "匯入 CSV"
                (start (inr (plan_with "ingest_csv" "{}"))
                   (always (inr (PCallToolResult
                      (Retrieval.error_reply "CSV 檔案不存在: sample.csv")))))
                _ _ _ _ eq_refl eq_refl eq_refl) as [H _].
  unfold Mock.process_request. rewrite H. split; reflexivity.
Defined.

(** The model answers with a JSON list. *)
Lemma plan_that_is_no_mapping_raises_witness :
  Mock.process_request "你好" (start (inr "[1, 2]") (always (inr PNone)))
    = (inl AttributeError, start (inr "[1, 2]") (always (inr PNone)))
  /\ calls (start (inr "[1, 2]") (always (inr PNone))) = [].
Proof.
  refine (plan_that_is_no_mapping_raises
            World llm_invoke Json.json_loads call_tool Scenario.py_str
            RETRIEVAL_URL REPORT_URL "你好"
            (start (inr "[1, 2]") (always (inr PNone))) _ _ eq_refl _).
  discriminate.
Defined.

(** The model cannot be reached. *)
Lemma model_failure_propagates_witness :
  let s := start (inl (OtherError "Connection error.")) (always (inr PNone)) in
  Mock.interpret_with_llm "你好" s = (inl (OtherError "Connection error."), s)
  /\ Mock.process_request "你好" s = (inl (OtherError "Connection error."), s).
Proof.
  exact (model_failure_propagates
           World llm_invoke Json.json_loads call_tool Scenario.py_str
           RETRIEVAL_URL REPORT_URL "你好"
           (start (inl (OtherError "Connection error.")) (always (inr PNone)))
           _ _ eq_refl).
Defined.

(** The retrieval agent cannot be reached while a report is asked for. *)
Lemma remote_failure_propagates_witness :
  let down := always (inl (OtherError "All connection attempts failed")) in
  let s := start (inr (plan_with "generate_report" "{}")) down in
  Mock.process_request "產生 Excel 報表" s
    = (inl (OtherError "All connection attempts failed"),
       mkState (world s)
         [mkCall RETRIEVAL_URL "list_returns" (PDict [("limit", PInt 500)])]).
Proof.
  exact (proj2 (proj2 (remote_failure_propagates
           World llm_invoke Json.json_loads call_tool Scenario.py_str
           RETRIEVAL_URL REPORT_URL "產生 Excel 報表"
           (start (inr (plan_with "generate_report" "{}"))
              (always (inl (OtherError "All connection attempts failed"))))
           _ _ _ _ eq_refl)) eq_refl eq_refl).
Defined.

(** A report over the three rows of the sample. *)
Lemma report_forwards_listed_rows_witness :
  let rows := PList (map Retrieval.row_dict
                       (Retrieval.table (Retrieval.db Scenario.loaded))) in
  let s := Scenario.start (Scenario.plan_text "generate_report") Scenario.loaded in
  Scenario.process_request "產生 Excel 報表" s
    = (inr Scenario.report_ok,
       mkState (world s)
         [mkCall Scenario.RETRIEVAL_URL "list_returns" (PDict [("limit", PInt 500)]);
          mkCall Scenario.REPORT_URL "generate_excel_report" (PDict [("rows", rows)])]).
Proof.
  exact (report_forwards_listed_rows
           Scenario.World Scenario.llm_invoke Json.json_loads Scenario.call_tool
           Scenario.py_str Scenario.RETRIEVAL_URL Scenario.REPORT_URL
           "產生 Excel 報表"
           (Scenario.start (Scenario.plan_text "generate_report") Scenario.loaded)
           _ _ _ _ _ _ eq_refl eq_refl eq_refl eq_refl eq_refl).
Defined.

(** The listing is asked for before the table exists. *)
Lemma list_branch_masks_agent_error_witness :
  Retrieval.list_returns Scenario.DB_PATH 500 Scenario.fresh
    = PDict [("status", PStr "error"); ("error", PStr "returns 表不存在");
             ("db_path", PStr "returns.db")]
  /\ fst (Scenario.process_request "列出所有退貨"
            (Scenario.start (Scenario.plan_text "list_returns") Scenario.fresh))
     = inr (PDict [("status", PStr "ok"); ("rows", PList [])]).
Proof.
  split; [reflexivity|].
  exact (list_branch_masks_agent_error
           Scenario.World Scenario.llm_invoke Json.json_loads Scenario.call_tool
           Scenario.py_str Scenario.RETRIEVAL_URL Scenario.REPORT_URL
           "列出所有退貨"
           (Scenario.start (Scenario.plan_text "list_returns") Scenario.fresh)
           _ _ _ _ eq_refl eq_refl eq_refl eq_refl eq_refl).
Defined.

(** An agent answers the listing with [{"rows": null}]. *)
Lemma list_branch_unsized_rows_raise_witness :
  fst (Mock.process_request "列出所有退貨"
         (start (inr (plan_with "list_returns" "{}"))
            (always (inr (PCallToolResult (PDict [("rows", PNone)]))))))
  = inl TypeError.
Proof.
  refine (list_branch_unsized_rows_raise
            World llm_invoke Json.json_loads call_tool Scenario.py_str
            RETRIEVAL_URL REPORT_URL "列出所有退貨"
            (start (inr (plan_with "list_returns" "{}"))
               (always (inr (PCallToolResult (PDict [("rows", PNone)])))))
            _ _ _ _ _ eq_refl eq_refl eq_refl eq_refl _).
  now left.
Defined.

(** The model gives the args as an empty list. *)
Lemma query_branch_args_no_mapping_raise_witness :
  let s := start (inr (plan_with "query_db" "[]")) (always (inr PNone)) in
  Mock.process_request "台北有幾筆退貨" s = (inl TypeError, s)
  /\ calls s = [].
Proof.
  refine (query_branch_args_no_mapping_raise
            World llm_invoke Json.json_loads call_tool Scenario.py_str
            RETRIEVAL_URL REPORT_URL "台北有幾筆退貨"
            (start (inr (plan_with "query_db" "[]")) (always (inr PNone)))
            _ _ (PList []) eq_refl eq_refl eq_refl _).
  do 4 right. exists []. split; [reflexivity | intros []].
Defined.

(** The first start on a fresh machine. *)
Lemma init_db_ingests_when_store_is_empty_witness :
  exists w',
    Scenario.init_db (Scenario.start EmptyString Scenario.fresh)
    = (inr tt,
       mkState w' [mkCall Scenario.RETRIEVAL_URL "ingest_csv"
                     (PDict [("path", PStr "sample.csv")])]).
Proof.
  refine (init_db_ingests_when_store_is_empty
            Scenario.World Scenario.call_tool Scenario.select_count
            Scenario.RETRIEVAL_URL (Scenario.start EmptyString Scenario.fresh)
            _ _ eq_refl _).
  discriminate.
Defined.

(** An unknown instruction comes back as a JSON body. *)
Lemma process_endpoint_renders_errors_as_json_witness :
  let s := start (inr (plan_with "none" "{}")) (always (inr PNone)) in
  Mock.process_endpoint "你好" s
    = (inr (Body (PDict [("status", PStr "error");
                         ("message",
                          PStr "未知的任務: {'tool': 'none', 'args': {}}")])), s).
Proof.
  refine (process_endpoint_renders_errors_as_json
            World llm_invoke Json.json_loads call_tool Scenario.py_str
            RETRIEVAL_URL REPORT_URL "/tmp" write_file "你好"
            (start (inr (plan_with "none" "{}")) (always (inr PNone)))
            _ _ eq_refl _).
  now left.
Defined.

(** A listing is a JSON body even when the rows carry a field named
    [file_base64]. *)
Lemma process_endpoint_file_only_from_passthrough_witness :
  let rows := PList [PDict [("file_base64", PStr "QUJD")]] in
  let s := start (inr (plan_with "list_returns" "{}"))
             (always (inr (PCallToolResult (PDict [("rows", rows)])))) in
  let resp := Body (PDict [("status", PStr "ok"); ("rows", rows)]) in
  fst (Mock.process_endpoint "列出所有退貨" s) = inr resp
  /\ exists body, resp = Body body.
Proof.
  cbv zeta. split; [reflexivity|].
  exact (process_endpoint_file_only_from_passthrough
           World llm_invoke Json.json_loads call_tool Scenario.py_str
           RETRIEVAL_URL REPORT_URL "/tmp" write_file "列出所有退貨"
           (start (inr (plan_with "list_returns" "{}"))
              (always (inr (PCallToolResult
                 (PDict [("rows", PList [PDict [("file_base64", PStr "QUJD")]])])))))
           _ _ _ _ eq_refl eq_refl eq_refl eq_refl).
Defined.

(** A report reply that names its file. *)
Lemma process_endpoint_writes_decoded_file_witness :
  let reply := PCallToolResult
                 (PDict [("status", PStr "ok"); ("file_name", PStr "march.xlsx");
                         ("file_base64", PStr "UEstZGF0YQ==")]) in
  let s := start (inr (plan_with "generate_report" "{}"))
             (reporter (PList [PStr "r"]) (inr reply)) in
  exists s',
    Mock.process_endpoint "產生 Excel 報表" s
      = (inr (FileResponse "/tmp/march.xlsx" "march.xlsx"
                "application/vnd.openxmlformats-officedocument.spreadsheetml.sheet"),
         s')
    /\ disk (world s') = [("/tmp/march.xlsx", "PK-data")].
Proof.
  cbv zeta. eexists. split.
  - exact (process_endpoint_writes_decoded_file
             World llm_invoke Json.json_loads call_tool Scenario.py_str
             RETRIEVAL_URL REPORT_URL "/tmp" write_file "產生 Excel 報表"
             (start (inr (plan_with "generate_report" "{}"))
                (reporter (PList [PStr "r"])
                   (inr (PCallToolResult
                      (PDict [("status", PStr "ok"); ("file_name", PStr "march.xlsx");
                              ("file_base64", PStr "UEstZGF0YQ==")])))))
             _ _ "UEstZGF0YQ==" "PK-data" "march.xlsx" _
             eq_refl eq_refl eq_refl eq_refl eq_refl eq_refl).
  - reflexivity.
Defined.

(** A reply that names its file by an absolute path: the file lands
    there, not in the temporary directory. *)
Lemma process_endpoint_write_path_witness :
  let reply := PCallToolResult
                 (PDict [("status", PStr "ok");
                         ("file_name", PStr "/srv/app/coordinator.py");
                         ("file_base64", PStr "UEstZGF0YQ==")]) in
  let s := start (inr (plan_with "generate_report" "{}"))
             (reporter (PList [PStr "r"]) (inr reply)) in
  exists s',
    Mock.process_endpoint "產生 Excel 報表" s
      = (inr (FileResponse "/srv/app/coordinator.py" "/srv/app/coordinator.py"
                "application/vnd.openxmlformats-officedocument.spreadsheetml.sheet"),
         s')
    /\ disk (world s') = [("/srv/app/coordinator.py", "PK-data")].
Proof.
  cbv zeta.
  destruct (process_endpoint_write_path
              World llm_invoke Json.json_loads call_tool Scenario.py_str
              RETRIEVAL_URL REPORT_URL "/tmp" write_file "產生 Excel 報表"
              (start (inr (plan_with "generate_report" "{}"))
                 (reporter (PList [PStr "r"])
                    (inr (PCallToolResult
                       (PDict [("status", PStr "ok");
                               ("file_name", PStr "/srv/app/coordinator.py");
                               ("file_base64", PStr "UEstZGF0YQ==")])))))
              _ _ "UEstZGF0YQ==" "PK-data" "/srv/app/coordinator.py"
              eq_refl eq_refl eq_refl eq_refl eq_refl) as (path & W & _ & Abs).
  rewrite (Abs eq_refl) in W.
  eexists. split; [exact (W _ _ eq_refl) | reflexivity].
Defined.

(** A query reply whose [file_base64] is a number. *)
Lemma process_endpoint_bad_file_reply_raises_witness :
  let reply := PCallToolResult
                 (PDict [("status", PStr "ok"); ("file_base64", PInt 7)]) in
  let s := start (inr (plan_with "query_db" "{}")) (always (inr reply)) in
  exists e, fst (Mock.process_endpoint "台北有幾筆退貨" s) = inl e.
Proof.
  cbv zeta.
  destruct (process_endpoint_bad_file_reply_raises
              World llm_invoke Json.json_loads call_tool Scenario.py_str
              RETRIEVAL_URL REPORT_URL "/tmp" write_file "台北有幾筆退貨"
              (start (inr (plan_with "query_db" "{}"))
                 (always (inr (PCallToolResult
                    (PDict [("status", PStr "ok"); ("file_base64", PInt 7)])))))
              _ _ (PInt 7) eq_refl eq_refl eq_refl
              (or_introl (fun t (H : PInt 7 = PStr t) =>
                 eq_ind (PInt 7) (fun v => match v with PInt _ => True | _ => False end)
                   I (PStr t) H))) as [e E].
  exists e. unfold Mock.process_endpoint. now rewrite E.
Defined.

(** Rows without the column [store]. *)
Lemma generate_excel_report_requires_columns_witness :
  let r := PDict [("order_id", PStr "A001"); ("product", PStr "keyboard");
                  ("date", PStr "2024-01-05")] in
  exists lacking,
    In "store" lacking
    /\ Mock.generate_excel_report (PList [r]) tt
       = (inr (PDict [("status", PStr "error");
                      ("message",
                       PStr ("缺少欄位: " ++ set_str lacking))]), tt).
Proof.
  refine (ReportFacts.generate_excel_report_requires_columns
            unit _ _ _
            (PDict [("order_id", PStr "A001"); ("product", PStr "keyboard");
                    ("date", PStr "2024-01-05")])
            [] _ "store" tt eq_refl _ _).
  - cbn. tauto.
  - intros d [<-|[]]. reflexivity.
Defined.

(** The three rows of the sample, as listed. *)
Lemma generate_excel_report_accepts_listed_rows_witness :
  Mock.generate_excel_report
    (PList (map Retrieval.row_dict (Retrieval.table (Retrieval.db Scenario.loaded)))) tt
  = (inr (PDict [("status", PStr "ok");
                 ("file_name", PStr "returns_report.xlsx");
                 ("file_base64", PStr (Base64.b64encode workbook));
                 ("message", PStr "Excel 報表生成成功")]), tt).
Proof.
  exact (ReportFacts.generate_excel_report_accepts_listed_rows
           unit _ _ _ _ _ workbook tt tt eq_refl).
Defined.

(** A call with a number for [rows]. *)
Lemma generate_excel_report_reply_shape_witness :
  (exists msg,
     PDict [("status", PStr "error");
            ("message", PStr "rows 格式錯誤: <class 'int'>")]
     = PDict [("status", PStr "error"); ("message", PStr msg)])
  \/ (exists l file_bytes,
        write_report l tt = (inr (inr file_bytes), tt)
        /\ PDict [("status", PStr "error");
                  ("message", PStr "rows 格式錯誤: <class 'int'>")]
           = PDict [("status", PStr "ok");
                    ("file_name", PStr "returns_report.xlsx");
                    ("file_base64", PStr (Base64.b64encode file_bytes));
                    ("message", PStr "Excel 報表生成成功")]).
Proof.
  exact (ReportFacts.generate_excel_report_reply_shape
           unit irregular_columns set_str write_report
           (PInt 3) _ tt tt eq_refl).
Defined.

(** The rows sent under [rows]. *)
Lemma generate_excel_report_unwraps_rows_witness :
  Mock.generate_excel_report (PDict [("rows", PList [])]) tt
  = Mock.generate_excel_report (PList []) tt.
Proof.
  refine (ReportFacts.generate_excel_report_unwraps_rows
            unit _ _ _ [("rows", PList [])] (PList []) tt eq_refl _).
  discriminate.
Defined.

(** The workbook of the reporting agent reaches the disk of the
    coordinator. *)
Lemma report_file_round_trip_witness :
  let rows := PList (map Retrieval.row_dict
                       (Retrieval.table (Retrieval.db Scenario.loaded))) in
  let reply := match fst (Mock.generate_excel_report rows tt) with
               | inr r => inr (PCallToolResult r)
               | inl e => inl e
               end in
  let s := start (inr (plan_with "generate_report" "{}")) (reporter rows reply) in
  exists s',
    Mock.process_endpoint "產生 Excel 報表" s
      = (inr (FileResponse "/tmp/returns_report.xlsx" "returns_report.xlsx"
                "application/vnd.openxmlformats-officedocument.spreadsheetml.sheet"),
         s')
    /\ disk (world s') = [("/tmp/returns_report.xlsx", workbook)].
Proof.
  cbv zeta.
  destruct (report_file_round_trip
              World llm_invoke Json.json_loads call_tool Scenario.py_str
              RETRIEVAL_URL REPORT_URL "/tmp" write_file
              unit irregular_columns set_str write_report
              (PList (map Retrieval.row_dict
                        (Retrieval.table (Retrieval.db Scenario.loaded))))
              _ tt tt "產生 Excel 報表"
              (start (inr (plan_with "generate_report" "{}"))
                 (reporter
                    (PList (map Retrieval.row_dict
                              (Retrieval.table (Retrieval.db Scenario.loaded))))
                    (match fst (Mock.generate_excel_report
                                  (PList (map Retrieval.row_dict
                                            (Retrieval.table (Retrieval.db Scenario.loaded))))
                                  tt) with
                     | inr r => inr (PCallToolResult r)
                     | inl e => inl e
                     end)))
              _ eq_refl eq_refl eq_refl)
    as (l & file_bytes & W & H).
  injection W as <-.
  eexists. split; [exact (H _ eq_refl) | reflexivity].
Defined.

(** A listing of two of the three rows. *)
Lemma list_returns_count_and_limit_witness :
  exists rs,
    Retrieval.list_returns "returns.db" 2 Scenario.loaded
      = PDict [("status", PStr "ok"); ("rows", PList (map Retrieval.row_dict rs));
               ("count", PInt (Z.of_nat (List.length rs)));
               ("db_path", PStr "returns.db")]
    /\ (exists rest, Retrieval.table (Retrieval.db Scenario.loaded) = (rs ++ rest)%list)
    /\ Z.of_nat (List.length rs) = 2.
Proof.
  destruct (ListingFacts.list_returns_count_and_limit "returns.db" 2
              Scenario.loaded _ eq_refl ltac:(lia)) as (rs & E & P & _ & M).
  exists rs. split; [exact E|]. split; [exact P|].
  rewrite M by lia. reflexivity.
Defined.

(** The sample listed with the limit 2, and with a limit beyond 64
    bits. *)
Lemma unwrap_rows_of_list_returns_witness :
  unwrap_rows (PCallToolResult (Retrieval.list_returns "returns.db" 2 Scenario.loaded))
  = PList (map Retrieval.row_dict
             (Retrieval.select_limit 2 (Retrieval.table (Retrieval.db Scenario.loaded))))
  /\ unwrap_rows (PCallToolResult
                    (Retrieval.list_returns "returns.db" (2 ^ 63) Scenario.loaded))
     = PList [].
Proof.
  split.
  - apply (proj1 (ListingFacts.unwrap_rows_of_list_returns "returns.db" 2
                    Scenario.loaded)). lia.
  - apply (proj1 (proj2 (ListingFacts.unwrap_rows_of_list_returns "returns.db"
                           (2 ^ 63) Scenario.loaded))). lia.
Defined.

(** The sample ingested on a machine that holds it already. *)
Lemma ingest_csv_keys_are_fresh_witness :
  let a' := snd (Scenario.ingest_csv "sample.csv" Scenario.loaded) in
  NoDup (map Retrieval.id (Retrieval.table (Retrieval.db a')))
  /\ keys_bounded (Retrieval.db a')
  /\ Forall (fun r => 3 < Retrieval.id r) (Retrieval.table (Retrieval.db a'))
  /\ Retrieval.seq (Retrieval.db a') = 3 + 3
  /\ (keys_bounded (Retrieval.db Scenario.loaded) ->
      forall old new,
        In old (Retrieval.table (Retrieval.db Scenario.loaded)) ->
        In new (Retrieval.table (Retrieval.db a')) ->
        Retrieval.id old < Retrieval.id new).
Proof.
  exact (ListingFacts.ingest_csv_keys_are_fresh
           Scenario.path_exists Scenario.read_csv Scenario.uuid4 Scenario.py_str
           Scenario.refused Scenario.float_text "sample.csv" Scenario.loaded _ _
           eq_refl eq_refl).
Defined.

(** The file with numbers ingested, then listed with the default
    limit. *)
Lemma list_returns_after_ingest_csv_witness :
  let a' := snd (Scenario.ingest_csv "coded.csv" Scenario.fresh) in
  unwrap_rows (PCallToolResult (Retrieval.list_returns "returns.db" 500 a'))
  = PList (map (fun v => let '(o, p, s, dt) := v in
                         PDict [("order_id", o); ("product", p);
                                ("store", s); ("date", dt)])
               (Retrieval.records Scenario.uuid4 Scenario.py_str
                  Scenario.float_text Scenario.coded O)).
Proof.
  cbv zeta.
  destruct (ListingFacts.list_returns_after_ingest_csv
              Scenario.path_exists Scenario.read_csv Scenario.uuid4 Scenario.py_str
              Scenario.refused Scenario.float_text "returns.db" "coded.csv"
              Scenario.fresh _ _ 500 eq_refl eq_refl ltac:(lia)) as (df & R & K).
  change (inr Scenario.coded = inr (A:=string) df) in R. injection R as <-.
  apply K. right. cbn. lia.
Defined.

(** A file that is not there, on a machine that holds the sample. *)
Lemma ingest_csv_failure_keeps_rows_witness :
  let r := Scenario.ingest_csv "april.csv" Scenario.loaded in
  (exists msg, fst r = PDict [("status", PStr "error"); ("error", PStr msg)])
  /\ Retrieval.table (Retrieval.db (snd r))
     = Retrieval.table (Retrieval.db Scenario.loaded)
  /\ Retrieval.seq (Retrieval.db (snd r)) = Retrieval.seq (Retrieval.db Scenario.loaded).
Proof.
  refine (ListingFacts.ingest_csv_failure_keeps_rows
            Scenario.path_exists Scenario.read_csv Scenario.uuid4 Scenario.py_str
            Scenario.refused Scenario.float_text "april.csv" Scenario.loaded _ _
            eq_refl _).
  discriminate.
Defined.

(** The chain is built, then the token goes away. *)
Lemma get_db_chain_is_cached_witness :
  let g' := snd (Lazy.get_db_chain ready nothing_built) in
  Lazy.get_db_chain no_token g' = (Some echo, g').
Proof.
  exact (LazyFacts.get_db_chain_is_cached unit unit ready no_token
           nothing_built _ echo eq_refl).
Defined.

(** The database cannot be opened. *)
Lemma get_db_chain_failure_is_retried_witness :
  let g' := snd (Lazy.get_db_chain no_database nothing_built) in
  Lazy._db_chain g' = None
  /\ (forall l, Lazy._llm nothing_built = Some l -> Lazy._llm g' = Some l).
Proof.
  exact (LazyFacts.get_db_chain_failure_is_retried unit unit no_database
           nothing_built _ eq_refl).
Defined.

(** No token was set. *)
Lemma query_db_without_token_witness :
  (exists e, Lazy.get_llm no_token nothing_built = (inl e, nothing_built))
  /\ Lazy.get_db_chain no_token nothing_built = (None, nothing_built)
  /\ Lazy.query_db no_token "台北有幾筆退貨" nothing_built Scenario.loaded
     = (PDict [("status", PStr "error");
               ("error", PStr "SQLDatabaseChain 未初始化成功")],
        nothing_built, Scenario.loaded).
Proof.
  exact (LazyFacts.query_db_without_token unit unit no_token nothing_built
           "台北有幾筆退貨" Scenario.loaded (or_introl eq_refl) eq_refl eq_refl).
Defined.

(** The model is built, then the token goes away. *)
Lemma get_llm_is_cached_witness :
  let g' := snd (Lazy.get_llm ready nothing_built) in
  Lazy.get_llm no_token g' = (inr tt, g').
Proof.
  exact (LazyFacts.get_llm_is_cached unit unit ready no_token
           nothing_built _ tt eq_refl).
Defined.

End MoreRuns.
